(** * jina-mcp: the parameter-to-protocol translation layer

    A shallow embedding of the three MCP tool handlers that the route
    file of the server registers ([fetch_url_content] and [search], as in
    [api/mcp/server.ts], and [searchGoogleFlights], which the fuller
    version of that file adds after them), and the properties of their
    request builders, validators and response translators. Line numbers
    in the comments are those of the fuller file; the first two handlers
    are at the same lines in both.

    Conventions of the embedding.
    - A JavaScript string is a [string]: the sequence of its UTF-8 bytes.
    - A JavaScript number that a [z.number().int()] schema lets through is
      a [Z]; [String(n)] and [n.toString()] are the decimal numeral, which
      is what JavaScript prints for every integer up to 2^53 in magnitude
      (beyond that a number prints its shortest round-trip digits, and from
      10^21 on in exponent form; the embedding does not cover those).
    - An optional parameter is an [option]; [None] is [undefined].
    - A handler is a program over two effects, the outbound [fetch] and
      [console.error]; exceptions are explicit ([Throw], [try_catch]).
    - [zod] is modelled as version 3 behaves on data of the right types:
      a failed [.refine] records its issue and lets the refinements chained
      after it run; [ZodError.errors] is the list of issues. *)

From Stdlib Require Import ZArith Ascii String List.
From stdpp Require Import base strings gmap list pretty.

Local Open Scope Z_scope.

(** ** The JavaScript runtime, as far as the handlers use it *)

Module JS.

(** A thrown [Error]; the handlers only ever read [error.message]. *)
Record JsError := { error_message : string }.

(** The outcome of an operation that may throw. *)
Inductive Exc (A : Type) : Type :=
| Normal (a : A)
| Thrown (e : JsError).
Global Arguments Normal {A} a.
Global Arguments Thrown {A} e.

(** The primitive values a validated parameter can hold. *)
Inductive JsValue : Type :=
| JUndefined
| JBoolean (b : bool)
| JNumber (n : Z)
| JString (s : string).

Definition of_option {A} (inj : A → JsValue) (o : option A) : JsValue :=
  match o with
  | Some a => inj a
  | None => JUndefined
  end.

(** [if (v)]: ToBoolean. *)
Definition truthy (v : JsValue) : bool :=
  match v with
  | JUndefined => false
  | JBoolean b => b
  | JNumber n => negb (n =? 0)
  | JString s => negb (String.eqb s "")
  end.

(** [String(n)] / [n.toString()] on an integer of magnitude at most 2^53. *)
Definition String_of_number (n : Z) : string := pretty n.

(** [String(b)] / [b.toString()]. *)
Definition String_of_boolean (b : bool) : string :=
  if b then "true" else "false".

(** [Array.prototype.join] on strings. *)
Fixpoint join (sep : string) (l : list string) : string :=
  match l with
  | [] => ""
  | [s] => s
  | s :: rest => s +:+ sep +:+ join sep rest
  end.

(** [haystack.includes(needle)]. *)
Fixpoint includes (haystack needle : string) : bool :=
  String.prefix needle haystack ||
  match haystack with
  | EmptyString => false
  | String _ rest => includes rest needle
  end.

End JS.
Export JS.

(** ** [URLSearchParams]: an ordered list of name/value pairs *)

Module URLSearchParams.

Local Open Scope nat_scope.

Definition t : Type := list (string * string).

(** [new URLSearchParams()] *)
Definition empty : t := [].

(** [params.append(name, value)] *)
Definition append (name value : string) (params : t) : t :=
  params ++ [(name, value)].

Definition has (name : string) (params : t) : bool :=
  existsb (λ nv, String.eqb (fst nv) name) params.

(** Replace the value of the first pair called [name], drop the later ones. *)
Fixpoint set_existing (name value : string) (params : t) : t :=
  match params with
  | [] => []
  | (n, v) :: rest =>
      if String.eqb n name
      then (n, value) :: List.filter (λ nv, negb (String.eqb (fst nv) name)) rest
      else (n, v) :: set_existing name value rest
  end.

(** [params.set(name, value)] *)
Definition set (name value : string) (params : t) : t :=
  if has name params then set_existing name value params
  else append name value params.

(** [params.getAll(name)] *)
Definition getAll (name : string) (params : t) : list string :=
  map snd (List.filter (λ nv, String.eqb (fst nv) name) params).

(** *** The application/x-www-form-urlencoded serializer *)

Definition in_range (lo hi n : nat) : bool := (lo <=? n)%nat && (n <=? hi)%nat.

(** Bytes left as they are: ASCII alphanumerics and [*], [-], [.], [_]. *)
Definition unreserved (c : ascii) : bool :=
  let n := nat_of_ascii c in
  in_range 48 57 n || in_range 65 90 n || in_range 97 122 n
  || (n =? 42)%nat || (n =? 45)%nat || (n =? 46)%nat || (n =? 95)%nat.

Definition hex_digit (n : nat) : ascii :=
  if (n <? 10)%nat then ascii_of_nat (48 + n) else ascii_of_nat (55 + n).

Definition percent_encode_byte (c : ascii) : string :=
  if Ascii.eqb c " " then "+"
  else if unreserved c then String c EmptyString
  else String "%" (String (hex_digit (nat_of_ascii c / 16))
                     (String (hex_digit (nat_of_ascii c mod 16)) EmptyString)).

Fixpoint percent_encode (s : string) : string :=
  match s with
  | EmptyString => EmptyString
  | String c rest => percent_encode_byte c +:+ percent_encode rest
  end.

Definition serialize_pair (nv : string * string) : string :=
  percent_encode (fst nv) +:+ "=" +:+ percent_encode (snd nv).

(** [params.toString()] *)
Definition toString (params : t) : string :=
  join "&" (map serialize_pair params).

(** *** The application/x-www-form-urlencoded parser

    What the receiving end ([new URLSearchParams(query)]) reads back; the
    handlers never call it, it is what "the query string contains an
    entry" means. *)

(** Split at every occurrence of [sep]. *)
Fixpoint split_on (sep : ascii) (s : string) : list string :=
  match s with
  | EmptyString => [EmptyString]
  | String c rest =>
      if Ascii.eqb c sep then EmptyString :: split_on sep rest
      else match split_on sep rest with
           | [] => [String c EmptyString]
           | piece :: pieces => String c piece :: pieces
           end
  end.

(** Split at the first [=]; without one the value is empty. *)
Fixpoint split_pair (s : string) : string * string :=
  match s with
  | EmptyString => (EmptyString, EmptyString)
  | String c rest =>
      if Ascii.eqb c "=" then (EmptyString, rest)
      else let '(n, v) := split_pair rest in (String c n, v)
  end.

Definition hex_value (c : ascii) : option nat :=
  let n := nat_of_ascii c in
  if in_range 48 57 n then Some (n - 48)
  else if in_range 65 70 n then Some (n - 55)
  else if in_range 97 102 n then Some (n - 87)
  else None.

(** [+] becomes a space and [%XX] the byte it names. *)
Fixpoint percent_decode (s : string) : string :=
  match s with
  | EmptyString => EmptyString
  | String c rest =>
      if Ascii.eqb c "+" then String " " (percent_decode rest)
      else if Ascii.eqb c "%" then
        match rest with
        | String h (String l rest') =>
            match hex_value h, hex_value l with
            | Some hv, Some lv => String (ascii_of_nat (16 * hv + lv)) (percent_decode rest')
            | _, _ => String c (percent_decode rest)
            end
        | _ => String c (percent_decode rest)
        end
      else String c (percent_decode rest)
  end.

Definition parse_pair (piece : string) : string * string :=
  let '(n, v) := split_pair piece in (percent_decode n, percent_decode v).

Definition parse (query : string) : t :=
  map parse_pair
      (List.filter (λ piece, negb (String.eqb piece "")) (split_on "&" query)).

End URLSearchParams.

(** ** HTTP requests and responses, as [fetch] sees them *)

Module Http.

Inductive Method := GET | POST.

(** The [headers] object of a request: header name to value. *)
Abbreviation Headers := (gmap string string).

(** The arguments of one [fetch(url, init)] call. *)
Record Request := {
  req_url : string;
  req_method : option Method;              (* [init.method], if given *)
  req_headers : Headers;                   (* [init.headers]; empty without [init] *)
  req_body : option URLSearchParams.t;     (* [init.body], if given *)
}.

(** [fetch] issues a GET unless [init.method] says otherwise. *)
Definition effective_method (r : Request) : Method :=
  default GET (req_method r).

(** A parsed JSON document. The handlers only ever hand it to
    [JSON.stringify(data, null, 2)], so a document is represented by
    what that call renders. *)
Record JsonValue := { JSON_stringify_indent2 : string }.

(** A [Response]: [status], [statusText], and what [await response.text()]
    and [await response.json()] give (either may throw). *)
Record Response := {
  status : Z;
  statusText : string;
  text_result : Exc string;
  json_result : Exc JsonValue;
}.

(** [response.ok]: the status is in the range 200-299. *)
Definition ok (r : Response) : bool :=
  (200 <=? status r) && (status r <=? 299).

End Http.
Export Http.

(** ** Handler programs: [fetch], [console.error], exceptions *)

Module Prog.

(** One validation issue of a [ZodError]. *)
Record Issue := { path : list string; message : string }.

(** An argument of a [console.error] call. *)
Inductive LogArg :=
| LogString (s : string)
| LogIssues (issues : list Issue).

Inductive Prog (A : Type) : Type :=
| Ret (a : A)
| Throw (e : JsError)
| Fetch (req : Request) (k : Exc Response → Prog A)
| ConsoleError (args : list LogArg) (k : Prog A).
Global Arguments Ret {A} a.
Global Arguments Throw {A} e.
Global Arguments Fetch {A} req k.
Global Arguments ConsoleError {A} args k.

Fixpoint bind {A B} (m : Prog A) (f : A → Prog B) : Prog B :=
  match m with
  | Ret a => f a
  | Throw e => Throw e
  | Fetch req k => Fetch req (λ o, bind (k o) f)
  | ConsoleError args k => ConsoleError args (bind k f)
  end.

(** [try { m } catch (error) { h error }] *)
Fixpoint try_catch {A} (m : Prog A) (h : JsError → Prog A) : Prog A :=
  match m with
  | Ret a => Ret a
  | Throw e => h e
  | Fetch req k => Fetch req (λ o, try_catch (k o) h)
  | ConsoleError args k => ConsoleError args (try_catch k h)
  end.

(** Awaiting a promise that settled with [o]. *)
Definition await {A} (o : Exc A) : Prog A :=
  match o with
  | Normal a => Ret a
  | Thrown e => Throw e
  end.

(** [await fetch(url, init)] *)
Definition await_fetch (req : Request) : Prog Response :=
  Fetch req await.

(** [console.error(...args)] *)
Definition console_error (args : list LogArg) : Prog unit :=
  ConsoleError args (Ret tt).

(** What an invocation did to the outside world. *)
Inductive Event :=
| Fetched (req : Request)
| Logged (args : list LogArg).

(** Run a handler against an upstream: the events in order, and how the
    handler finished. *)
Fixpoint run {A} (upstream : Request → Exc Response) (m : Prog A)
  : list Event * Exc A :=
  match m with
  | Ret a => ([], Normal a)
  | Throw e => ([], Thrown e)
  | Fetch req k =>
      let '(events, r) := run upstream (k (upstream req)) in
      (Fetched req :: events, r)
  | ConsoleError args k =>
      let '(events, r) := run upstream k in
      (Logged args :: events, r)
  end.

Definition requests_of (events : list Event) : list Request :=
  omap (λ ev, match ev with Fetched req => Some req | Logged _ => None end) events.

End Prog.
Export Prog.

Global Instance Prog_ret : MRet Prog := @Ret.
Global Instance Prog_bind : MBind Prog := λ A B f m, bind m f.

(** ** The result envelope of a tool *)

Record ContentItem := { type : string; text : string }.

(** [{ content: [...], isError?: boolean }] *)
Record ToolResult := {
  content : list ContentItem;
  isError : option bool;
}.

Definition text_content (s : string) : list ContentItem :=
  [{| type := "text"; text := s |}].

(** [{ content: [{ type: "text", text }] }] *)
Definition success_result (s : string) : ToolResult :=
  {| content := text_content s; isError := None |}.

(** [{ content: [{ type: "text", text }], isError: true }] *)
Definition error_result (s : string) : ToolResult :=
  {| content := text_content s; isError := Some true |}.

(** ** Guards on optional parameters *)

(** [if (field) { ... field ... }]: the body runs when the field is truthy;
    [undefined], [false], [0] and the empty string are not. *)
Definition if_truthy {A S} (inj : A → JsValue) (field : option A)
    (body : A → S → S) (s : S) : S :=
  match field with
  | Some a => if truthy (inj a) then body a s else s
  | None => s
  end.

(** [if (typeof field === 'number') { ... }] on an optional number, and
    [if (field !== undefined) { ... }]: the body runs when the field is there. *)
Definition if_defined {A S} (field : option A) (body : A → S → S) (s : S) : S :=
  match field with
  | Some a => body a s
  | None => s
  end.

(** ** Tool 1: [fetch_url_content] *)

Module FetchTool.

(** [z.enum(["markdown", "html", "text", "screenshot"])] *)
Inductive OutputFormat := fmt_markdown | fmt_html | fmt_text | fmt_screenshot.

Definition OutputFormat_string (f : OutputFormat) : string :=
  match f with
  | fmt_markdown => "markdown"
  | fmt_html => "html"
  | fmt_text => "text"
  | fmt_screenshot => "screenshot"
  end.

Record FetchParams := {
  url : string;
  apiKey : option string;
  generateImageAlt : option bool;
  cookies : option string;
  outputFormat : option OutputFormat;
  proxyUrl : option string;
  cacheTolerance : option Z;
  noCache : option bool;
  targetSelector : option string;
  waitForSelector : option string;
  timeout : option Z;
  jsonOutput : option bool;
  usePostForUrl : option bool;
}.

(** Lines 53-67: the header object built from the optional parameters. *)
Definition fetch_headers (p : FetchParams) : Headers :=
  let requestHeaders : Headers := ∅ in
  let requestHeaders :=
    if_truthy JString (apiKey p)
      (λ apiKey, <["Authorization" := "Bearer " +:+ apiKey]>) requestHeaders in
  let requestHeaders :=
    if_truthy JBoolean (generateImageAlt p)
      (λ _, <["X-With-Generated-Alt" := "true"]>) requestHeaders in
  let requestHeaders :=
    if_truthy JString (cookies p)
      (λ cookies, <["X-Set-Cookie" := cookies]>) requestHeaders in
  let requestHeaders :=
    if_truthy (JString ∘ OutputFormat_string) (outputFormat p)
      (λ outputFormat, <["X-Respond-With" := OutputFormat_string outputFormat]>)
      requestHeaders in
  let requestHeaders :=
    if_truthy JString (proxyUrl p)
      (λ proxyUrl, <["X-Proxy-Url" := proxyUrl]>) requestHeaders in
  let requestHeaders :=
    if_defined (cacheTolerance p)
      (λ cacheTolerance, <["X-Cache-Tolerance" := String_of_number cacheTolerance]>)
      requestHeaders in
  let requestHeaders :=
    if_truthy JBoolean (noCache p)
      (λ _, <["X-No-Cache" := "true"]>) requestHeaders in
  let requestHeaders :=
    if_truthy JString (targetSelector p)
      (λ targetSelector, <["X-Target-Selector" := targetSelector]>) requestHeaders in
  let requestHeaders :=
    if_truthy JString (waitForSelector p)
      (λ waitForSelector, <["X-Wait-For-Selector" := waitForSelector]>)
      requestHeaders in
  let requestHeaders :=
    if_defined (timeout p)
      (λ timeout, <["X-Timeout" := String_of_number timeout]>) requestHeaders in
  let requestHeaders :=
    if_truthy JBoolean (jsonOutput p)
      (λ _, <["Accept" := "application/json"]>) requestHeaders in
  requestHeaders.

Definition jinaBaseUrl : string := "https://r.jina.ai/".

(** Lines 69-81: the one [fetch] call of the handler. *)
Definition fetch_request (p : FetchParams) : Request :=
  let requestHeaders := fetch_headers p in
  if truthy (of_option JBoolean (usePostForUrl p)) then
    let requestHeaders :=
      <["Content-Type" := "application/x-www-form-urlencoded"]> requestHeaders in
    {| req_url := jinaBaseUrl;
       req_method := Some POST;
       req_headers := requestHeaders;
       req_body := Some [("url", url p)] |}
  else
    {| req_url := jinaBaseUrl +:+ url p;
       req_method := None;
       req_headers := requestHeaders;
       req_body := None |}.

Definition fetch_url_content (p : FetchParams) : Prog ToolResult :=
  try_catch
    (response ← await_fetch (fetch_request p);
     if negb (ok response) then
       errorText ← await (text_result response);
       mret (error_result
               ("Error fetching URL: " +:+ String_of_number (status response)
                +:+ " " +:+ statusText response +:+ ". " +:+ errorText))
     else
       textContent ← await (text_result response);
       mret (success_result textContent))
    (λ error,
       mret (error_result
               ("Network error fetching URL: " +:+ error_message error))).

End FetchTool.

(** ** Tool 2: [search] *)

Module SearchTool.

(** [z.enum(["web", "images", "news"])] *)
Inductive SearchType := type_web | type_images | type_news.

Definition SearchType_string (t : SearchType) : string :=
  match t with
  | type_web => "web"
  | type_images => "images"
  | type_news => "news"
  end.

(** [z.enum(["google", "bing"])] *)
Inductive Provider := provider_google | provider_bing.

Definition Provider_string (v : Provider) : string :=
  match v with
  | provider_google => "google"
  | provider_bing => "bing"
  end.

(** [z.enum(["json", "text"])] *)
Inductive OutputFormat := fmt_json | fmt_text.

Definition OutputFormat_string (f : OutputFormat) : string :=
  match f with
  | fmt_json => "json"
  | fmt_text => "text"
  end.

Record SearchParams := {
  q : string;
  apiKey : string;
  type : option SearchType;
  provider : option Provider;
  count : option Z;
  num : option Z;
  gl : option string;
  hl : option string;
  location : option string;
  page : option Z;
  fallback : option bool;
  nfpr : option bool;
  ext : option (list string);
  filetype : option (list string);
  intitle : option (list string);
  site : option (list string);
  loc : option (list string);
  outputFormat : option OutputFormat;
  noCache : option bool;
  cacheTolerance : option Z;
}.

(** Lines 151-155. *)
Definition search_headers (p : SearchParams) : Headers :=
  let requestHeaders : Headers := ∅ in
  let requestHeaders :=
    if_truthy JString (Some (apiKey p))
      (λ apiKey, <["Authorization" := "Bearer " +:+ apiKey]>) requestHeaders in
  let requestHeaders :=
    match outputFormat p with
    | Some fmt_json => <["Accept" := "application/json"]> requestHeaders
    | _ => requestHeaders
    end in
  let requestHeaders :=
    if_truthy JBoolean (noCache p)
      (λ _, <["X-No-Cache" := "true"]>) requestHeaders in
  let requestHeaders :=
    if_defined (cacheTolerance p)
      (λ cacheTolerance, <["X-Cache-Tolerance" := String_of_number cacheTolerance]>)
      requestHeaders in
  requestHeaders.

(** [if (xs?.length) xs.forEach(x => searchParams.append(name, x))] *)
Definition append_each (name : string) (field : option (list string))
    (searchParams : URLSearchParams.t) : URLSearchParams.t :=
  match field with
  | Some xs =>
      if truthy (JNumber (Z.of_nat (length xs)))
      then fold_left (λ params x, URLSearchParams.append name x params) xs searchParams
      else searchParams
  | None => searchParams
  end.

(** Lines 157-173; [type] and [fallback] carry their destructuring
    defaults ["web"] and [true]. *)
Definition search_params (p : SearchParams) : URLSearchParams.t :=
  let type := Some (default type_web (type p)) in
  let fallback := Some (default true (fallback p)) in
  let searchParams := URLSearchParams.empty in
  let searchParams := URLSearchParams.append "q" (q p) searchParams in
  let searchParams :=
    if_truthy (JString ∘ SearchType_string) type
      (λ type, URLSearchParams.append "type" (SearchType_string type)) searchParams in
  let searchParams :=
    if_truthy (JString ∘ Provider_string) (provider p)
      (λ provider, URLSearchParams.append "provider" (Provider_string provider))
      searchParams in
  let searchParams :=
    if_truthy JNumber (count p)
      (λ count, URLSearchParams.append "count" (String_of_number count)) searchParams in
  let searchParams :=
    if_truthy JNumber (num p)
      (λ num, URLSearchParams.append "num" (String_of_number num)) searchParams in
  let searchParams :=
    if_truthy JString (gl p) (λ gl, URLSearchParams.append "gl" gl) searchParams in
  let searchParams :=
    if_truthy JString (hl p) (λ hl, URLSearchParams.append "hl" hl) searchParams in
  let searchParams :=
    if_truthy JString (location p)
      (λ location, URLSearchParams.append "location" location) searchParams in
  let searchParams :=
    if_truthy JNumber (page p)
      (λ page, URLSearchParams.append "page" (String_of_number page)) searchParams in
  let searchParams :=
    if_defined fallback
      (λ fallback, URLSearchParams.append "fallback" (String_of_boolean fallback))
      searchParams in
  let searchParams :=
    if_defined (nfpr p)
      (λ nfpr, URLSearchParams.append "nfpr" (String_of_boolean nfpr)) searchParams in
  let searchParams := append_each "ext" (ext p) searchParams in
  let searchParams := append_each "filetype" (filetype p) searchParams in
  let searchParams := append_each "intitle" (intitle p) searchParams in
  let searchParams := append_each "site" (site p) searchParams in
  let searchParams := append_each "loc" (loc p) searchParams in
  searchParams.

(** The query string of the request, [searchParams.toString()]. *)
Definition search_query (p : SearchParams) : string :=
  URLSearchParams.toString (search_params p).

(** Lines 175-177. *)
Definition search_request (p : SearchParams) : Request :=
  {| req_url := "https://s.jina.ai/search?" +:+ search_query p;
     req_method := None;
     req_headers := search_headers p;
     req_body := None |}.

Definition search (p : SearchParams) : Prog ToolResult :=
  try_catch
    (response ← await_fetch (search_request p);
     if negb (ok response) then
       errorText ← await (text_result response);
       mret (error_result
               ("Error performing search: " +:+ String_of_number (status response)
                +:+ " " +:+ statusText response +:+ ". " +:+ errorText))
     else
       responseText ← await (text_result response);
       mret (success_result responseText))
    (λ error,
       mret (error_result
               ("Network error during search: " +:+ error_message error))).

End SearchTool.

(** ** The part of zod the flights tool uses *)

Module Zod.

(** A schema, run on data that already has the right JavaScript types,
    collects issues; it aborts on none of the checks used here, so every
    check is evaluated and every failure is recorded, in order. *)
Definition Schema (A : Type) : Type := A → list Issue.

(** [schema.refine(check, { message, path })]: the inner schema runs
    first, then [check]; a failed check adds one issue and does not stop
    the refinements chained after it. *)
Definition refine {A} (schema : Schema A) (check : A → bool)
    (message : string) (path : list string) : Schema A :=
  λ data,
    let issues := schema data in
    if check data then issues
    else issues ++ [{| path := path; message := message |}].

Inductive ParseResult (A : Type) : Type :=
| Parsed (value : A)
| ZodError (errors : list Issue).
Global Arguments Parsed {A} value.
Global Arguments ZodError {A} errors.

(** [schema.parse(data)]: the data back, or a thrown [ZodError] that
    carries all the issues. *)
Definition parse {A} (schema : Schema A) (data : A) : ParseResult A :=
  match schema data with
  | [] => Parsed data
  | errors => ZodError errors
  end.

Definition is_digit (c : ascii) : bool :=
  (48 <=? nat_of_ascii c)%nat && (nat_of_ascii c <=? 57)%nat.

(** The regular expression [/^\d{4}-\d{2}-\d{2}$/]. *)
Definition matches_date (s : string) : bool :=
  match list_ascii_of_string s with
  | [y1; y2; y3; y4; d1; m1; m2; d2; a1; a2] =>
      forallb is_digit [y1; y2; y3; y4; m1; m2; a1; a2]
      && Ascii.eqb d1 "-" && Ascii.eqb d2 "-"
  | _ => false
  end.

(** [z.string().regex(re, message).optional()] at key [name]. *)
Definition regex_issue (name message : string) (field : option string) : list Issue :=
  match field with
  | Some s => if matches_date s then []
              else [{| path := [name]; message := message |}]
  | None => []
  end.

(** [z.number().int().min(0).optional()] at key [name], with zod's
    message for a number that is too small. *)
Definition min0_issue (name : string) (field : option Z) : list Issue :=
  match field with
  | Some n => if 0 <=? n then []
              else [{| path := [name];
                       message := "Number must be greater than or equal to 0" |}]
  | None => []
  end.

End Zod.

(** ** Tool 3: [searchGoogleFlights] *)

Module FlightsTool.

(** [z.enum(["1", "2", "3"])] *)
Inductive FlightType := flight_type_1 | flight_type_2 | flight_type_3.
Global Instance FlightType_eq_dec : EqDecision FlightType.
Proof. solve_decision. Defined.
Definition FlightType_string (v : FlightType) : string :=
  match v with
  | flight_type_1 => "1" | flight_type_2 => "2" | flight_type_3 => "3"
  end.

(** [z.enum(["1", "2", "3", "4"])] *)
Inductive TravelClass :=
  travel_class_1 | travel_class_2 | travel_class_3 | travel_class_4.
Definition TravelClass_string (v : TravelClass) : string :=
  match v with
  | travel_class_1 => "1" | travel_class_2 => "2"
  | travel_class_3 => "3" | travel_class_4 => "4"
  end.

(** [z.enum(["1", "2", "3", "4", "5", "6"])] *)
Inductive SortBy :=
  sort_by_1 | sort_by_2 | sort_by_3 | sort_by_4 | sort_by_5 | sort_by_6.
Definition SortBy_string (v : SortBy) : string :=
  match v with
  | sort_by_1 => "1" | sort_by_2 => "2" | sort_by_3 => "3"
  | sort_by_4 => "4" | sort_by_5 => "5" | sort_by_6 => "6"
  end.

(** [z.enum(["0", "1", "2", "3"])] *)
Inductive Stops := stops_0 | stops_1 | stops_2 | stops_3.
Definition Stops_string (v : Stops) : string :=
  match v with
  | stops_0 => "0" | stops_1 => "1" | stops_2 => "2" | stops_3 => "3"
  end.

(** [z.enum(["1"])] *)
Inductive Emissions := emissions_1.
Definition Emissions_string (v : Emissions) : string :=
  match v with emissions_1 => "1" end.

(** The object described by [googleFlightsRawShape], keys in shape order. *)
Record FlightParams := {
  api_key : string;
  departure_id : option string;
  arrival_id : option string;
  gl : option string;
  hl : option string;
  currency : option string;
  flight_type : option FlightType;
  outbound_date : option string;
  return_date : option string;
  travel_class : option TravelClass;
  multi_city_json : option string;
  show_hidden : option bool;
  deep_search : option bool;
  adults : option Z;
  children : option Z;
  infants_in_seat : option Z;
  infants_on_lap : option Z;
  sort_by : option SortBy;
  stops : option Stops;
  exclude_airlines : option string;
  include_airlines : option string;
  bags : option Z;
  max_price : option Z;
  outbound_times : option string;
  return_times : option string;
  emissions : option Emissions;
  layover_duration : option string;
  exclude_conns : option string;
  max_duration : option Z;
  departure_token : option string;
  booking_token : option string;
  no_cache : option bool;
  async_search : option bool;
  zero_trace : option bool;
}.

Definition date_message : string := "Date must be in YYYY-MM-DD format".

(** [z.object(googleFlightsRawShape)]: the checks of the fields that have
    one beyond their type. *)
Definition googleFlightsRawShape : Zod.Schema FlightParams :=
  λ data,
    Zod.regex_issue "outbound_date" date_message (outbound_date data)
    ++ Zod.regex_issue "return_date" date_message (return_date data)
    ++ Zod.min0_issue "adults" (adults data)
    ++ Zod.min0_issue "children" (children data)
    ++ Zod.min0_issue "infants_in_seat" (infants_in_seat data)
    ++ Zod.min0_issue "infants_on_lap" (infants_on_lap data)
    ++ Zod.min0_issue "bags" (bags data)
    ++ Zod.min0_issue "max_price" (max_price data)
    ++ Zod.min0_issue "max_duration" (max_duration data).

(** The five predicates handed to [.refine], lines 247-272. *)
Definition check_airlines (data : FlightParams) : bool :=
  negb (truthy (of_option JString (exclude_airlines data))
        && truthy (of_option JString (include_airlines data))).

Definition check_tokens (data : FlightParams) : bool :=
  negb (truthy (of_option JString (departure_token data))
        && truthy (of_option JString (booking_token data))).

Definition check_cache (data : FlightParams) : bool :=
  negb (truthy (of_option JBoolean (no_cache data))
        && truthy (of_option JBoolean (async_search data))).

Definition check_return_date (data : FlightParams) : bool :=
  match flight_type data, return_date data with
  | Some flight_type_1, None => false
  | _, _ => true
  end.

Definition check_multi_city (data : FlightParams) : bool :=
  match flight_type data, multi_city_json data with
  | Some flight_type_3, None => false
  | _, _ => true
  end.

Definition googleFlightsFullSchema : Zod.Schema FlightParams :=
  Zod.refine
    (Zod.refine
       (Zod.refine
          (Zod.refine
             (Zod.refine googleFlightsRawShape
                check_airlines
                "exclude_airlines and include_airlines cannot be used together."
                ["exclude_airlines"])
             check_tokens
             "departure_token and booking_token cannot be used together."
             ["departure_token"])
          check_cache
          "no_cache and async_search cannot be used together."
          ["no_cache"])
       check_return_date
       "return_date is required when flight_type is '1' (Round trip)."
       ["return_date"])
    check_multi_city
    "multi_city_json is required when flight_type is '3' (Multi-city)."
    ["multi_city_json"].

(** [Object.entries(restParams)]: every key but [api_key], [flight_type]
    and [async_search], in shape order. A key that the caller left out is
    listed with [undefined], which the loop below skips just as it skips
    a key that is not there. *)
Definition restParams (p : FlightParams) : list (string * JsValue) :=
  [ ("departure_id", of_option JString (departure_id p));
    ("arrival_id", of_option JString (arrival_id p));
    ("gl", of_option JString (gl p));
    ("hl", of_option JString (hl p));
    ("currency", of_option JString (currency p));
    ("outbound_date", of_option JString (outbound_date p));
    ("return_date", of_option JString (return_date p));
    ("travel_class", of_option (JString ∘ TravelClass_string) (travel_class p));
    ("multi_city_json", of_option JString (multi_city_json p));
    ("show_hidden", of_option JBoolean (show_hidden p));
    ("deep_search", of_option JBoolean (deep_search p));
    ("adults", of_option JNumber (adults p));
    ("children", of_option JNumber (children p));
    ("infants_in_seat", of_option JNumber (infants_in_seat p));
    ("infants_on_lap", of_option JNumber (infants_on_lap p));
    ("sort_by", of_option (JString ∘ SortBy_string) (sort_by p));
    ("stops", of_option (JString ∘ Stops_string) (stops p));
    ("exclude_airlines", of_option JString (exclude_airlines p));
    ("include_airlines", of_option JString (include_airlines p));
    ("bags", of_option JNumber (bags p));
    ("max_price", of_option JNumber (max_price p));
    ("outbound_times", of_option JString (outbound_times p));
    ("return_times", of_option JString (return_times p));
    ("emissions", of_option (JString ∘ Emissions_string) (emissions p));
    ("layover_duration", of_option JString (layover_duration p));
    ("exclude_conns", of_option JString (exclude_conns p));
    ("max_duration", of_option JNumber (max_duration p));
    ("departure_token", of_option JString (departure_token p));
    ("booking_token", of_option JString (booking_token p));
    ("no_cache", of_option JBoolean (no_cache p));
    ("zero_trace", of_option JBoolean (zero_trace p)) ].

(** The body of the [for ... of Object.entries(restParams)] loop,
    lines 304-311. *)
Definition add_param (queryParams : URLSearchParams.t)
    (entry : string * JsValue) : URLSearchParams.t :=
  let '(key, value) := entry in
  match value with
  | JUndefined => queryParams
  | JBoolean b => URLSearchParams.set key (String_of_boolean b) queryParams
  | JNumber n => URLSearchParams.set key (String_of_number n) queryParams
  | JString s => URLSearchParams.set key s queryParams
  end.

(** Lines 289-312. *)
Definition flights_params (validatedParams : FlightParams) : URLSearchParams.t :=
  let queryParams : URLSearchParams.t :=
    [("engine", "google_flights"); ("api_key", api_key validatedParams)] in
  let queryParams :=
    if_defined (flight_type validatedParams)
      (λ flight_type, URLSearchParams.set "type" (FlightType_string flight_type))
      queryParams in
  let queryParams :=
    if_defined (async_search validatedParams)
      (λ async_search, URLSearchParams.set "async" (String_of_boolean async_search))
      queryParams in
  fold_left add_param (restParams validatedParams) queryParams.

(** The query string of the request, [queryParams.toString()]. *)
Definition flights_query (validatedParams : FlightParams) : string :=
  URLSearchParams.toString (flights_params validatedParams).

(** Lines 314 and 318: [fetch(serpApiUrl)], no [init]. *)
Definition flights_request (validatedParams : FlightParams) : Request :=
  {| req_url := "https://serpapi.com/search.json?" +:+ flights_query validatedParams;
     req_method := None;
     req_headers := ∅;
     req_body := None |}.

(** [`${e.path.join('.')}: ${e.message}`] *)
Definition format_issue (e : Issue) : string :=
  join "." (path e) +:+ ": " +:+ message e.

Definition searchGoogleFlights (params : FlightParams) : Prog ToolResult :=
  match Zod.parse googleFlightsFullSchema params with
  | Zod.ZodError errors =>
      _ ← console_error
            [LogString "Input validation error for searchGoogleFlights:";
             LogIssues errors];
      mret (error_result
              ("Input validation error: " +:+ join ", " (map format_issue errors)))
  | Zod.Parsed validatedParams =>
      try_catch
        (response ← await_fetch (flights_request validatedParams);
         if negb (ok response) then
           errorData ← await (text_result response);
           _ ← console_error
                 [LogString ("SerpApi Error (" +:+ String_of_number (status response)
                             +:+ "): " +:+ errorData)];
           mret (error_result
                   ("Error fetching flight data from SerpApi: "
                    +:+ String_of_number (status response) +:+ " "
                    +:+ statusText response +:+ ". Details: " +:+ errorData))
         else
           data ← await (json_result response);
           mret (success_result (JSON_stringify_indent2 data)))
        (λ error,
           _ ← console_error
                 [LogString ("Network or other error calling SerpApi: "
                             +:+ error_message error)];
           mret (error_result
                   ("Failed to fetch flight data: " +:+ error_message error)))
  end.

End FlightsTool.


(** * Definitions used to state the properties *)

(** [s] has no byte [ch]. *)
Fixpoint lacks (ch : ascii) (s : string) : bool :=
  match s with
  | EmptyString => true
  | String c rest => negb (Ascii.eqb c ch) && lacks ch rest
  end.

(** What a guard [if (field)] on an optional string lets through: a string
    that is there and not empty. *)
Definition nonempty (field : option string) : option string :=
  match field with
  | Some s => if String.eqb s "" then None else Some s
  | None => None
  end.

(** What a guard [if (field)] on an optional number lets through: a
    number that is there and not zero. *)
Definition nonzero (field : option Z) : option Z :=
  match field with
  | Some n => if n =? 0 then None else Some n
  | None => None
  end.

(** What a guard [if (field)] on an optional boolean lets through. *)
Definition is_true (field : option bool) : bool :=
  match field with
  | Some true => true
  | _ => false
  end.

(** The requests a run sent upstream. *)
Definition requests_sent {A} (outcome : list Event * Exc A) : list Request :=
  requests_of (fst outcome).

(** The run handed the caller an error-flagged result with this text. *)
Definition error_flagged (outcome : list Event * Exc ToolResult)
    (message : string) : Prop :=
  snd outcome = Normal (error_result message).

(** The run handed the caller a result, whatever it is: nothing was thrown
    through the tool boundary. *)
Definition returns_result (outcome : list Event * Exc ToolResult) : Prop :=
  ∃ result, snd outcome = Normal result.

(** An upstream that answers every request with [response]. *)
Definition answers (response : Response) : Request → Exc Response :=
  λ _, Normal response.

(** An upstream that cannot be reached: [fetch] throws [error]. *)
Definition unreachable (error : JsError) : Request → Exc Response :=
  λ _, Thrown error.

Module FetchSpec.
Import FetchTool.

(** The specification's wording of the header property: each optional
    field has its header exactly when the field is present. *)
Definition header_iff_present (p : FetchParams) : Prop :=
  let headers := fetch_headers p in
  (is_Some (headers !! "Authorization") ↔ is_Some (apiKey p))
  ∧ (is_Some (headers !! "X-With-Generated-Alt") ↔ is_Some (generateImageAlt p))
  ∧ (is_Some (headers !! "X-Set-Cookie") ↔ is_Some (cookies p))
  ∧ (is_Some (headers !! "X-Respond-With") ↔ is_Some (outputFormat p))
  ∧ (is_Some (headers !! "X-Proxy-Url") ↔ is_Some (proxyUrl p))
  ∧ (is_Some (headers !! "X-Cache-Tolerance") ↔ is_Some (cacheTolerance p))
  ∧ (is_Some (headers !! "X-No-Cache") ↔ is_Some (noCache p))
  ∧ (is_Some (headers !! "X-Target-Selector") ↔ is_Some (targetSelector p))
  ∧ (is_Some (headers !! "X-Wait-For-Selector") ↔ is_Some (waitForSelector p))
  ∧ (is_Some (headers !! "X-Timeout") ↔ is_Some (timeout p))
  ∧ (is_Some (headers !! "Accept") ↔ is_Some (jsonOutput p)).

(** A request for [url] with no optional field. *)
Definition plain_fetch (url : string) : FetchParams :=
  {| url := url;
     apiKey := None; generateImageAlt := None; cookies := None;
     outputFormat := None; proxyUrl := None; cacheTolerance := None;
     noCache := None; targetSelector := None; waitForSelector := None;
     timeout := None; jsonOutput := None; usePostForUrl := None |}.

(** [{ url: "https://example.com/", generateImageAlt: false }] *)
Definition no_image_alt : FetchParams :=
  {| url := "https://example.com/";
     apiKey := None; generateImageAlt := Some false; cookies := None;
     outputFormat := None; proxyUrl := None; cacheTolerance := None;
     noCache := None; targetSelector := None; waitForSelector := None;
     timeout := None; jsonOutput := None; usePostForUrl := None |}.

(** The names of the headers the optional fields map to. *)
Definition field_headers : gset string :=
  list_to_set
    ["Authorization"; "X-With-Generated-Alt"; "X-Set-Cookie"; "X-Respond-With";
     "X-Proxy-Url"; "X-Cache-Tolerance"; "X-No-Cache"; "X-Target-Selector";
     "X-Wait-For-Selector"; "X-Timeout"; "Accept"].

(** A 404 whose body reads [not found]. *)
Definition not_found : Response :=
  {| status := 404; statusText := "Not Found";
     text_result := Normal "not found";
     json_result := Thrown {| error_message := "Unexpected token o in JSON at position 1" |} |}.

End FetchSpec.

(** The query entry of an optional scalar: one pair when there is a value. *)
Definition entry (name : string) (value : option string) : URLSearchParams.t :=
  match value with
  | Some v => [(name, v)]
  | None => []
  end.

(** The query entries of an optional array: one pair per element. *)
Definition entries (name : string) (values : option (list string)) : URLSearchParams.t :=
  map (pair name) (default [] values).

Module SearchSpec.
Import SearchTool.

(** The specification's wording of the scalar property: the query string
    has each scalar field that is present exactly once. *)
Definition scalars_appended_once (p : SearchParams) : Prop :=
  let query := URLSearchParams.parse (search_query p) in
  let once name := length (URLSearchParams.getAll name query) = 1%nat in
  once "q"
  ∧ (is_Some (type p) → once "type")
  ∧ (is_Some (provider p) → once "provider")
  ∧ (is_Some (count p) → once "count")
  ∧ (is_Some (num p) → once "num")
  ∧ (is_Some (gl p) → once "gl")
  ∧ (is_Some (hl p) → once "hl")
  ∧ (is_Some (location p) → once "location")
  ∧ (is_Some (page p) → once "page")
  ∧ (is_Some (fallback p) → once "fallback")
  ∧ (is_Some (nfpr p) → once "nfpr").

(** A search for [q] with no optional field. *)
Definition plain_search (q apiKey : string) : SearchParams :=
  {| q := q; apiKey := apiKey;
     type := None; provider := None; count := None; num := None;
     gl := None; hl := None; location := None; page := None;
     fallback := None; nfpr := None;
     ext := None; filetype := None; intitle := None; site := None; loc := None;
     outputFormat := None; noCache := None; cacheTolerance := None |}.

(** [{ q: "rocq", apiKey: "key", count: 0 }] *)
Definition zero_count : SearchParams :=
  {| q := "rocq"; apiKey := "key";
     type := None; provider := None; count := Some 0; num := None;
     gl := None; hl := None; location := None; page := None;
     fallback := None; nfpr := None;
     ext := None; filetype := None; intitle := None; site := None; loc := None;
     outputFormat := None; noCache := None; cacheTolerance := None |}.

(** The pairs [search_params] holds, field by field. *)
Definition scalar_entries (p : SearchParams) : URLSearchParams.t :=
  [("q", q p)]
  ++ entry "type" (Some (SearchType_string (default type_web (type p))))
  ++ entry "provider" (Provider_string <$> provider p)
  ++ entry "count" (String_of_number <$> nonzero (count p))
  ++ entry "num" (String_of_number <$> nonzero (num p))
  ++ entry "gl" (nonempty (gl p))
  ++ entry "hl" (nonempty (hl p))
  ++ entry "location" (nonempty (location p))
  ++ entry "page" (String_of_number <$> nonzero (page p))
  ++ entry "fallback" (Some (String_of_boolean (default true (fallback p))))
  ++ entry "nfpr" (String_of_boolean <$> nfpr p).

Definition array_entries (p : SearchParams) : URLSearchParams.t :=
  entries "ext" (ext p)
  ++ entries "filetype" (filetype p)
  ++ entries "intitle" (intitle p)
  ++ entries "site" (site p)
  ++ entries "loc" (loc p).

End SearchSpec.

Module FlightsSpec.
Import FlightsTool.

(** [{ api_key }]: a request with its key and no optional field. *)
Definition plain_flights (api_key : string) : FlightParams :=
  {| api_key := api_key;
     departure_id := None; arrival_id := None; gl := None; hl := None;
     currency := None; flight_type := None; outbound_date := None;
     return_date := None; travel_class := None; multi_city_json := None;
     show_hidden := None; deep_search := None; adults := None; children := None;
     infants_in_seat := None; infants_on_lap := None; sort_by := None;
     stops := None; exclude_airlines := None; include_airlines := None;
     bags := None; max_price := None; outbound_times := None;
     return_times := None; emissions := None; layover_duration := None;
     exclude_conns := None; max_duration := None; departure_token := None;
     booking_token := None; no_cache := None; async_search := None;
     zero_trace := None |}.

(** [{ api_key: "key", no_cache: false, async_search: true }] *)
Definition fresh_off_async_on : FlightParams :=
  {| api_key := "key";
     departure_id := None; arrival_id := None; gl := None; hl := None;
     currency := None; flight_type := None; outbound_date := None;
     return_date := None; travel_class := None; multi_city_json := None;
     show_hidden := None; deep_search := None; adults := None; children := None;
     infants_in_seat := None; infants_on_lap := None; sort_by := None;
     stops := None; exclude_airlines := None; include_airlines := None;
     bags := None; max_price := None; outbound_times := None;
     return_times := None; emissions := None; layover_duration := None;
     exclude_conns := None; max_duration := None; departure_token := None;
     booking_token := None; no_cache := Some false; async_search := Some true;
     zero_trace := None |}.

(** [{ api_key: "key", flight_type: "1", exclude_airlines: "UA",
       include_airlines: "DL" }]: a round trip with no return date that
    both excludes and includes airlines. *)
Definition two_violations : FlightParams :=
  {| api_key := "key";
     departure_id := None; arrival_id := None; gl := None; hl := None;
     currency := None; flight_type := Some flight_type_1; outbound_date := None;
     return_date := None; travel_class := None; multi_city_json := None;
     show_hidden := None; deep_search := None; adults := None; children := None;
     infants_in_seat := None; infants_on_lap := None; sort_by := None;
     stops := None; exclude_airlines := Some "UA"; include_airlines := Some "DL";
     bags := None; max_price := None; outbound_times := None;
     return_times := None; emissions := None; layover_duration := None;
     exclude_conns := None; max_duration := None; departure_token := None;
     booking_token := None; no_cache := None; async_search := None;
     zero_trace := None |}.

(** [{ api_key: "key", departure_id: "AUS", flight_type: "2",
       outbound_date: "2025-05-19", adults: 2, async_search: false }] *)
Definition one_way : FlightParams :=
  {| api_key := "key";
     departure_id := Some "AUS"; arrival_id := None; gl := None; hl := None;
     currency := None; flight_type := Some flight_type_2;
     outbound_date := Some "2025-05-19";
     return_date := None; travel_class := None; multi_city_json := None;
     show_hidden := None; deep_search := None; adults := Some 2; children := None;
     infants_in_seat := None; infants_on_lap := None; sort_by := None;
     stops := None; exclude_airlines := None; include_airlines := None;
     bags := None; max_price := None; outbound_times := None;
     return_times := None; emissions := None; layover_duration := None;
     exclude_conns := None; max_duration := None; departure_token := None;
     booking_token := None; no_cache := None; async_search := Some false;
     zero_trace := None |}.

(** The cross-field invariants as section 3 of the specification words
    them: two fields that must not both be present, a field that must be
    present for a trip type. *)
Definition violates_invariants (p : FlightParams) : Prop :=
  (is_Some (exclude_airlines p) ∧ is_Some (include_airlines p))
  ∨ (is_Some (departure_token p) ∧ is_Some (booking_token p))
  ∨ (is_Some (no_cache p) ∧ is_Some (async_search p))
  ∨ (flight_type p = Some flight_type_1 ∧ return_date p = None)
  ∨ (flight_type p = Some flight_type_3 ∧ multi_city_json p = None).

(** The specification's wording of the validation property: a request
    that violates an invariant gets an error-flagged result and nothing is
    sent upstream. *)
Definition rejects_every_violation : Prop :=
  ∀ (p : FlightParams) (upstream : Request → Exc Response),
    googleFlightsRawShape p = [] →
    violates_invariants p →
    requests_sent (run upstream (searchGoogleFlights p)) = []
    ∧ ∃ message, error_flagged (run upstream (searchGoogleFlights p)) message.

(** An optional string that is present and not empty. *)
Definition has_value (field : option string) : bool :=
  match nonempty field with
  | Some _ => true
  | None => false
  end.

(** The issue of one rule, if the rule is violated. *)
Definition rule (violated : bool) (field message : string) : list Issue :=
  if violated then [{| path := [field]; message := message |}] else [].

(** The rules a request violates, as the code decides it, in the order the
    rules are chained. *)
Definition violated_rules (p : FlightParams) : list Issue :=
  rule (has_value (exclude_airlines p) && has_value (include_airlines p))
    "exclude_airlines"
    "exclude_airlines and include_airlines cannot be used together."
  ++ rule (has_value (departure_token p) && has_value (booking_token p))
       "departure_token"
       "departure_token and booking_token cannot be used together."
  ++ rule (is_true (no_cache p) && is_true (async_search p))
       "no_cache"
       "no_cache and async_search cannot be used together."
  ++ rule (bool_decide (flight_type p = Some flight_type_1)
           && bool_decide (return_date p = None))
       "return_date"
       "return_date is required when flight_type is '1' (Round trip)."
  ++ rule (bool_decide (flight_type p = Some flight_type_3)
           && bool_decide (multi_city_json p = None))
       "multi_city_json"
       "multi_city_json is required when flight_type is '3' (Multi-city).".

(** How a present value reads in the query string; an absent one does not. *)
Definition stringified (value : JsValue) : option string :=
  match value with
  | JUndefined => None
  | JBoolean b => Some (String_of_boolean b)
  | JNumber n => Some (String_of_number n)
  | JString s => Some s
  end.

Definition rendered (field : string * JsValue) : option (string * string) :=
  pair (fst field) <$> stringified (snd field).

(** The keys of [restParams]. *)
Definition rest_keys : list string :=
  ["departure_id"; "arrival_id"; "gl"; "hl"; "currency"; "outbound_date";
   "return_date"; "travel_class"; "multi_city_json"; "show_hidden";
   "deep_search"; "adults"; "children"; "infants_in_seat"; "infants_on_lap";
   "sort_by"; "stops"; "exclude_airlines"; "include_airlines"; "bags";
   "max_price"; "outbound_times"; "return_times"; "emissions";
   "layover_duration"; "exclude_conns"; "max_duration"; "departure_token";
   "booking_token"; "no_cache"; "zero_trace"].

(** Every name a flights query string can hold: the fixed [engine], the
    key, the two renamed fields and the other fields under their own names. *)
Definition flights_query_names : list string :=
  ["engine"; "api_key"; "type"; "async";
   "departure_id"; "arrival_id"; "gl"; "hl"; "currency"; "outbound_date";
   "return_date"; "travel_class"; "multi_city_json"; "show_hidden";
   "deep_search"; "adults"; "children"; "infants_in_seat"; "infants_on_lap";
   "sort_by"; "stops"; "exclude_airlines"; "include_airlines"; "bags";
   "max_price"; "outbound_times"; "return_times"; "emissions";
   "layover_duration"; "exclude_conns"; "max_duration"; "departure_token";
   "booking_token"; "no_cache"; "zero_trace"].

(** The pairs of the query string, field by field. *)
Definition query_entries (p : FlightParams) : URLSearchParams.t :=
  [("engine", "google_flights"); ("api_key", api_key p)]
  ++ entry "type" (FlightType_string <$> flight_type p)
  ++ entry "async" (String_of_boolean <$> async_search p)
  ++ omap rendered (restParams p).

(** A 200 whose body is an HTML page, so that [response.json()] throws. *)
Definition html_page (error : JsError) : Response :=
  {| status := 200; statusText := "OK";
     text_result := Normal "<html>Bad gateway</html>";
     json_result := Thrown error |}.

End FlightsSpec.

(** The run handed the caller an error-flagged result whose text is
    [prefix] followed by [description]. *)
Definition reports (outcome : list Event * Exc ToolResult)
    (prefix description : string) : Prop :=
  error_flagged outcome (prefix +:+ description)
  ∧ includes (prefix +:+ description) description = true.

(** * Definitions used to state the further properties *)

(** The [console.error] calls of a run, in order. *)
Definition lines_logged {A} (outcome : list Event * Exc A) : list (list LogArg) :=
  omap (λ ev, match ev with Logged args => Some args | Fetched _ => None end)
       (fst outcome).

(** No body could be read: [fetch] threw, or [response.text()] did. *)
Definition unreadable (answer : Exc Response) : Prop :=
  match answer with
  | Thrown _ => True
  | Normal response => ∃ error, text_result response = Thrown error
  end.

(** The upstream answered with a status outside 200-299 and a body that
    could be read. *)
Definition refused (answer : Exc Response) : Prop :=
  ∃ response body,
    answer = Normal response ∧ ok response = false
    ∧ text_result response = Normal body.

(** What the flights handler cannot use: [fetch] threw, or the status is in
    200-299 and [response.json()] threw, or it is not and [response.text()]
    threw. *)
Definition undecodable (answer : Exc Response) : Prop :=
  match answer with
  | Thrown _ => True
  | Normal response =>
      if ok response then ∃ error, json_result response = Thrown error
      else ∃ error, text_result response = Thrown error
  end.

(** Every byte of [s] passes [test]. *)
Fixpoint all_bytes (test : ascii → bool) (s : string) : bool :=
  match s with
  | EmptyString => true
  | String c rest => test c && all_bytes test rest
  end.

(** The bytes a serialized query is made of: the ones left as they are,
    [+] for a space, [%] of an escape, and the separators [&] and [=]. *)
Definition query_byte (c : ascii) : bool :=
  URLSearchParams.unreserved c
  || Ascii.eqb c "+" || Ascii.eqb c "%" || Ascii.eqb c "&" || Ascii.eqb c "=".

(** A 200 whose body is a Markdown page. *)
Definition markdown_page : Response :=
  {| status := 200; statusText := "OK";
     text_result := Normal "# Title";
     json_result := Thrown {| error_message := "Unexpected token # in JSON at position 0" |} |}.

(** A response whose body stream breaks while it is read. *)
Definition broken_body (status : Z) (error : JsError) : Response :=
  {| status := status; statusText := "";
     text_result := Thrown error;
     json_result := Thrown error |}.

(** A 429 from the flight data provider. *)
Definition too_many_requests : Response :=
  {| status := 429; statusText := "Too Many Requests";
     text_result := Normal "rate limit exceeded";
     json_result := Normal {| JSON_stringify_indent2 := "{}" |} |}.

(** The names of the query parameters the search handler appends. *)
Definition search_query_names : list string :=
  ["q"; "type"; "provider"; "count"; "num"; "gl"; "hl"; "location"; "page";
   "fallback"; "nfpr"; "ext"; "filetype"; "intitle"; "site"; "loc"].

(** The names of the headers the search handler sets. *)
Definition search_header_names : gset string :=
  list_to_set ["Authorization"; "Accept"; "X-No-Cache"; "X-Cache-Tolerance"].

(** A string made of query bytes only; so it has no space, no [#], no [?]
    and no [/]. *)
Definition url_clean (s : string) : Prop :=
  all_bytes query_byte s = true
  ∧ lacks " " s = true ∧ lacks "#" s = true
  ∧ lacks "?" s = true ∧ lacks "/" s = true.

(** * Properties *)

(** ** Strings *)

Lemma append_cons (c : ascii) (a b : string) : String c a +:+ b = String c (a +:+ b).
Proof. reflexivity. Qed.

Lemma append_nil_l (a : string) : "" +:+ a = a.
Proof. reflexivity. Qed.

Lemma append_nil_r (a : string) : a +:+ "" = a.
Proof. induction a as [|ch a IH]; [done | by rewrite append_cons, IH]. Qed.

Lemma append_assoc (a b c : string) : (a +:+ b) +:+ c = a +:+ (b +:+ c).
Proof. induction a as [|ch a IH]; [done | by rewrite !append_cons, IH]. Qed.

Lemma prefix_append (a b : string) : String.prefix a (a +:+ b) = true.
Proof.
  induction a as [|ch a IH]; [by destruct b |].
  rewrite append_cons. simpl. destruct (ascii_dec ch ch); [done | congruence].
Qed.

Lemma includes_unfold (haystack needle : string) :
  includes haystack needle =
  String.prefix needle haystack ||
  match haystack with
  | EmptyString => false
  | String _ rest => includes rest needle
  end.
Proof. by destruct haystack. Qed.

Lemma includes_here (a b : string) : includes (a +:+ b) a = true.
Proof. by rewrite includes_unfold, prefix_append. Qed.

Lemma includes_skip (a s needle : string) :
  includes s needle = true → includes (a +:+ s) needle = true.
Proof.
  intros H. induction a as [|ch a IH]; [done |].
  rewrite append_cons. simpl. rewrite IH. apply orb_true_r.
Qed.

(** A string includes each of the pieces it was put together from. *)
Lemma includes_middle (a b c : string) : includes (a +:+ b +:+ c) b = true.
Proof. apply includes_skip, includes_here. Qed.

Lemma includes_end (a b : string) : includes (a +:+ b) b = true.
Proof. rewrite <- (append_nil_r b) at 1. apply includes_middle. Qed.

Lemma includes_join (sep x : string) (l : list string) :
  In x l → includes (join sep l) x = true.
Proof.
  induction l as [|y l IH]; [done |].
  intros [-> | Hin].
  - destruct l; [rewrite <- (append_nil_r x) at 1|]; apply includes_here.
  - destruct l as [|z l]; [done |].
    change (join sep (y :: z :: l)) with (y +:+ sep +:+ join sep (z :: l)).
    by apply includes_skip, includes_skip, IH.
Qed.

(** ** The form-urlencoded serializer and parser are inverse *)

Module URLSearchParamsFacts.
Import URLSearchParams.

Lemma lacks_append ch a b : lacks ch (a +:+ b) = lacks ch a && lacks ch b.
Proof.
  induction a as [|c a IH]; [done |].
  rewrite append_cons. simpl. by rewrite IH, andb_assoc.
Qed.

Lemma percent_encode_byte_lacks c :
  lacks "&" (percent_encode_byte c) = true ∧ lacks "=" (percent_encode_byte c) = true.
Proof. destruct c as [[] [] [] [] [] [] [] []]; vm_compute; done. Qed.

Lemma percent_encode_lacks s :
  lacks "&" (percent_encode s) = true ∧ lacks "=" (percent_encode s) = true.
Proof.
  induction s as [|c s [IH1 IH2]]; [done |].
  simpl. rewrite !lacks_append, IH1, IH2.
  by destruct (percent_encode_byte_lacks c) as [-> ->].
Qed.

Lemma percent_decode_byte c s :
  percent_decode (percent_encode_byte c +:+ s) = String c (percent_decode s).
Proof. destruct c as [[] [] [] [] [] [] [] []]; reflexivity. Qed.

Lemma percent_decode_encode s : percent_decode (percent_encode s) = s.
Proof.
  induction s as [|c s IH]; [done |].
  simpl. by rewrite percent_decode_byte, IH.
Qed.

Lemma split_pair_append a b :
  lacks "=" a = true → split_pair (a +:+ String "=" b) = (a, b).
Proof.
  induction a as [|c a IH]; [done |].
  rewrite append_cons. simpl. intros [Hc Ha]%andb_true_iff.
  apply negb_true_iff in Hc. rewrite Hc, IH; done.
Qed.

Lemma parse_serialize_pair nv : parse_pair (serialize_pair nv) = nv.
Proof.
  destruct nv as [n v]. unfold parse_pair, serialize_pair. simpl.
  change (percent_encode n +:+ "=" +:+ percent_encode v)
    with (percent_encode n +:+ String "=" (percent_encode v)).
  rewrite split_pair_append by apply percent_encode_lacks.
  by rewrite !percent_decode_encode.
Qed.

Lemma split_on_lacks ch a : lacks ch a = true → split_on ch a = [a].
Proof.
  induction a as [|c a IH]; [done |].
  simpl. intros [Hc Ha]%andb_true_iff.
  apply negb_true_iff in Hc. rewrite Hc, IH; done.
Qed.

Lemma split_on_append ch a b :
  lacks ch a = true → split_on ch (a +:+ String ch b) = a :: split_on ch b.
Proof.
  induction a as [|c a IH].
  - intros _. rewrite append_nil_l. simpl.
    by rewrite (proj2 (Ascii.eqb_eq ch ch) eq_refl).
  - rewrite append_cons. simpl. intros [Hc Ha]%andb_true_iff.
    apply negb_true_iff in Hc. rewrite Hc, IH; done.
Qed.

Lemma split_on_join ch (l : list string) :
  l ≠ [] → Forall (λ s, lacks ch s = true) l →
  split_on ch (join (String ch "") l) = l.
Proof.
  induction l as [|x l IH]; [done |]. intros _ Hall.
  apply Forall_cons in Hall as [Hx Hl].
  destruct l as [|y l]; [by apply split_on_lacks |].
  change (join (String ch "") (x :: y :: l))
    with (x +:+ String ch "" +:+ join (String ch "") (y :: l)).
  rewrite append_cons, append_nil_l, split_on_append by done.
  by rewrite IH.
Qed.

Lemma serialize_pair_lacks nv : lacks "&" (serialize_pair nv) = true.
Proof.
  unfold serialize_pair. rewrite !lacks_append.
  by rewrite !(proj1 (percent_encode_lacks _)).
Qed.

Lemma serialize_pair_nonempty nv : String.eqb (serialize_pair nv) "" = false.
Proof.
  unfold serialize_pair. destruct (percent_encode (fst nv)); done.
Qed.

(** Reading a serialized query back gives the pairs that were
    serialized, in their order. *)
Lemma parse_toString (params : t) : parse (toString params) = params.
Proof.
  unfold parse, toString. destruct params as [|nv params]; [done |].
  rewrite split_on_join.
  - generalize (nv :: params). clear. intros l.
    induction l as [|x l IH]; [done |].
    simpl. rewrite serialize_pair_nonempty. simpl.
    by rewrite parse_serialize_pair, IH.
  - done.
  - apply List.Forall_forall. intros s [x [<- _]]%in_map_iff.
    apply serialize_pair_lacks.
Qed.

End URLSearchParamsFacts.

(** ** Handler programs *)

(** A program whose handler never throws finishes normally. *)
Lemma run_try_catch_normal {A} upstream (m : Prog A) (h : JsError → Prog A) :
  (∀ e, ∃ events a, run upstream (h e) = (events, Normal a)) →
  ∃ events a, run upstream (try_catch m h) = (events, Normal a).
Proof.
  intros Hh. induction m as [a | e | req k IH | args k IH]; simpl.
  - by eexists _, _.
  - apply Hh.
  - destruct (IH (upstream req)) as (events & a & ->). by eexists _, _.
  - destruct IH as (events & a & ->). by eexists _, _.
Qed.

Lemma parse_Parsed {A} (schema : Zod.Schema A) data v :
  Zod.parse schema data = Zod.Parsed v → v = data ∧ schema data = [].
Proof. unfold Zod.parse. destruct (schema data); by inversion 1. Qed.

(** ** Header lookups through the guards *)

Section GuardedInsert.
Context {A : Type} (inj : A → JsValue) (field : option A).
Context (k : string) (f : A → string) (h : Headers).

Lemma lookup_if_truthy_ne (k' : string) :
  k ≠ k' → if_truthy inj field (λ a, <[k := f a]>) h !! k' = h !! k'.
Proof.
  intros Hne. unfold if_truthy.
  destruct field as [a|]; [| done].
  destruct (truthy (inj a)); [by rewrite lookup_insert_ne | done].
Qed.

Lemma lookup_if_truthy_eq :
  if_truthy inj field (λ a, <[k := f a]>) h !! k =
  match field with
  | Some a => if truthy (inj a) then Some (f a) else h !! k
  | None => h !! k
  end.
Proof.
  unfold if_truthy. destruct field as [a|]; [| done].
  destruct (truthy (inj a)); [by rewrite lookup_insert_eq | done].
Qed.

Lemma lookup_if_defined_ne (k' : string) :
  k ≠ k' → if_defined field (λ a, <[k := f a]>) h !! k' = h !! k'.
Proof.
  intros Hne. destruct field as [a|]; [by apply lookup_insert_ne | done].
Qed.

Lemma lookup_if_defined_eq :
  if_defined field (λ a, <[k := f a]>) h !! k =
  match field with
  | Some a => Some (f a)
  | None => h !! k
  end.
Proof. destruct field as [a|]; [by apply lookup_insert_eq | done]. Qed.

(** A guarded insertion adds no name but its own. *)
Lemma dom_if_truthy (names : gset string) :
  k ∈ names → dom h ⊆ names →
  dom (if_truthy inj field (λ a, <[k := f a]>) h) ⊆ names.
Proof.
  intros Hk Hh. unfold if_truthy. destruct field as [a|]; [| done].
  destruct (truthy (inj a)); [| done].
  rewrite dom_insert_L. apply union_subseteq. by rewrite singleton_subseteq_l.
Qed.

Lemma dom_if_defined (names : gset string) :
  k ∈ names → dom h ⊆ names →
  dom (if_defined field (λ a, <[k := f a]>) h) ⊆ names.
Proof.
  intros Hk Hh. destruct field as [a|]; simpl; [| done].
  rewrite dom_insert_L. apply union_subseteq. by rewrite singleton_subseteq_l.
Qed.

End GuardedInsert.

(** Look a header up through the chain of guarded insertions. *)
Ltac header_lookup :=
  cbv zeta;
  repeat first
    [ rewrite lookup_if_truthy_ne by done
    | rewrite lookup_if_defined_ne by done
    | rewrite lookup_insert_ne by done
    | rewrite lookup_if_truthy_eq
    | rewrite lookup_if_defined_eq
    | rewrite lookup_insert_eq
    | rewrite lookup_empty ].

(** ** Reading query entries *)

Lemma getAll_app name (a b : URLSearchParams.t) :
  URLSearchParams.getAll name (a ++ b)
  = URLSearchParams.getAll name a ++ URLSearchParams.getAll name b.
Proof. unfold URLSearchParams.getAll. by rewrite List.filter_app, map_app. Qed.

Lemma getAll_entry name k (v : option string) :
  URLSearchParams.getAll name (entry k v)
  = if String.eqb k name then option_list v else [].
Proof.
  unfold URLSearchParams.getAll. destruct v as [v|]; simpl.
  - by destruct (String.eqb k name).
  - by destruct (String.eqb k name).
Qed.

Lemma getAll_entries name k (vs : option (list string)) :
  URLSearchParams.getAll name (entries k vs)
  = if String.eqb k name then default [] vs else [].
Proof.
  unfold URLSearchParams.getAll, entries.
  induction (default [] vs) as [|x xs IH]; simpl.
  - by destruct (String.eqb k name).
  - destruct (String.eqb k name); simpl in *; by rewrite ?IH.
Qed.

Ltac read_entries :=
  rewrite ?getAll_app, ?getAll_entry, ?getAll_entries; simpl;
  rewrite ?app_nil_r; simpl.

(** ** The content fetch translator *)

Module FetchClaims.
Import FetchTool FetchSpec.

Lemma fetch_url_content_run upstream p :
  run upstream (fetch_url_content p) =
  ([Fetched (fetch_request p)],
   Normal
     match upstream (fetch_request p) with
     | Thrown error => error_result ("Network error fetching URL: " +:+ error_message error)
     | Normal response =>
         match text_result response with
         | Thrown error =>
             error_result ("Network error fetching URL: " +:+ error_message error)
         | Normal body =>
             if ok response then success_result body
             else error_result
                    ("Error fetching URL: " +:+ String_of_number (status response)
                     +:+ " " +:+ statusText response +:+ ". " +:+ body)
         end
     end).
Proof.
  unfold fetch_url_content. simpl.
  destruct (upstream (fetch_request p)) as [response | error]; simpl; [| done].
  destruct (ok response), (text_result response); done.
Qed.

Lemma fetch_headers_dom p : dom (fetch_headers p) ⊆ field_headers.
Proof.
  unfold fetch_headers. cbv zeta.
  repeat first [ apply dom_if_truthy; [by vm_compute |]
               | apply dom_if_defined; [by vm_compute |] ].
  by rewrite dom_empty_L.
Qed.

(** C1, as the code has it. The header object holds, for each optional
    field, its one header exactly when the guard on the field lets it
    through: a string field that is present and not empty, a flag that is
    present and true, an output format or an integer ([cacheTolerance],
    [timeout]) that is present, zero included. A field that is absent has
    no header, and there is no header besides these eleven. The request
    carries these headers, and [Content-Type] besides when it is a POST. *)
Theorem fetch_headers_table (p : FetchParams) :
  let headers := fetch_headers p in
  headers !! "Authorization" = (λ key, "Bearer " +:+ key) <$> nonempty (apiKey p)
  ∧ headers !! "X-With-Generated-Alt"
    = (if is_true (generateImageAlt p) then Some "true" else None)
  ∧ headers !! "X-Set-Cookie" = nonempty (cookies p)
  ∧ headers !! "X-Respond-With" = OutputFormat_string <$> outputFormat p
  ∧ headers !! "X-Proxy-Url" = nonempty (proxyUrl p)
  ∧ headers !! "X-Cache-Tolerance" = String_of_number <$> cacheTolerance p
  ∧ headers !! "X-No-Cache" = (if is_true (noCache p) then Some "true" else None)
  ∧ headers !! "X-Target-Selector" = nonempty (targetSelector p)
  ∧ headers !! "X-Wait-For-Selector" = nonempty (waitForSelector p)
  ∧ headers !! "X-Timeout" = String_of_number <$> timeout p
  ∧ headers !! "Accept"
    = (if is_true (jsonOutput p) then Some "application/json" else None)
  ∧ dom headers ⊆ field_headers
  ∧ (∀ name, name ≠ "Content-Type" →
       req_headers (fetch_request p) !! name = headers !! name).
Proof.
  cbv zeta. repeat split; [.. | apply fetch_headers_dom | ].
  12: { intros name Hname. unfold fetch_request.
        destruct (truthy (of_option JBoolean (usePostForUrl p))); simpl; [| done].
        by rewrite lookup_insert_ne. }
  all: unfold fetch_headers; header_lookup.
  all: match goal with
       | |- context [nonempty ?field] => destruct field as [[|c s]|]
       | |- context [is_true ?field] => destruct field as [[]|]
       | |- context [fmap _ ?field] => destruct field as [x|]; [try destruct x |]
       end; done.
Qed.

(** C1, as the specification words it, fails: [generateImageAlt: false] is
    a present field and has no header. *)
Lemma header_iff_present_fails : ¬ header_iff_present no_image_alt.
Proof.
  intros (_ & [_ Hpresent] & _).
  destruct Hpresent as [value Hvalue]; [by eexists |].
  vm_compute in Hvalue. discriminate.
Qed.

(** C3. The handler sends one request. It is a POST exactly when
    [usePostForUrl] is true: then it goes to the base endpoint, its body is
    the form with the single field [url], and the form content type is
    set. In every other case it is a GET (no method is given) whose URL is
    the base endpoint followed by the target URL as it was passed, with no
    body and no content type. *)
Theorem fetch_method_selection (p : FetchParams) :
  let request := fetch_request p in
  (∀ upstream, requests_sent (run upstream (fetch_url_content p)) = [request])
  ∧ (effective_method request = POST ↔ usePostForUrl p = Some true)
  ∧ (usePostForUrl p = Some true →
       req_url request = "https://r.jina.ai/"
       ∧ req_body request = Some [("url", url p)]
       ∧ URLSearchParams.parse (URLSearchParams.toString [("url", url p)])
         = [("url", url p)]
       ∧ req_headers request !! "Content-Type"
         = Some "application/x-www-form-urlencoded")
  ∧ (usePostForUrl p ≠ Some true →
       effective_method request = GET
       ∧ req_url request = "https://r.jina.ai/" +:+ url p
       ∧ req_body request = None
       ∧ req_headers request !! "Content-Type" = None).
Proof.
  cbv zeta. split; [| split; [| split]].
  - intros upstream. by rewrite fetch_url_content_run.
  - unfold fetch_request. destruct (usePostForUrl p) as [[]|]; simpl; split; done.
  - intros Hpost. unfold fetch_request. rewrite Hpost. simpl.
    repeat split; [apply URLSearchParamsFacts.parse_toString | by rewrite lookup_insert_eq].
  - intros Hget. unfold fetch_request.
    assert (truthy (of_option JBoolean (usePostForUrl p)) = false) as ->
      by (by destruct (usePostForUrl p) as [[]|]).
    simpl. repeat split.
    apply not_elem_of_dom. intros Hin%fetch_headers_dom.
    revert Hin. unfold field_headers. simpl. set_solver.
Qed.

(** C7. When the upstream answers with a status outside 200-299, the
    result is error-flagged and its text is made of the status code, the
    status text and the response body; so it includes each of them. *)
Theorem fetch_upstream_error (upstream : Request → Exc Response)
    (p : FetchParams) (response : Response) (body : string) :
  upstream (fetch_request p) = Normal response →
  ok response = false →
  text_result response = Normal body →
  let message :=
    "Error fetching URL: " +:+ String_of_number (status response)
    +:+ " " +:+ statusText response +:+ ". " +:+ body in
  error_flagged (run upstream (fetch_url_content p)) message
  ∧ includes message (String_of_number (status response)) = true
  ∧ includes message (statusText response) = true
  ∧ includes message body = true.
Proof.
  intros Hup Hok Hbody message. subst message. repeat split.
  - unfold error_flagged. by rewrite fetch_url_content_run, Hup, Hbody, Hok.
  - apply includes_middle.
  - apply includes_skip, includes_skip, includes_middle.
  - do 4 apply includes_skip. apply includes_end.
Qed.

(** The specification's example for C7: status 404, body [not found]. *)
Lemma fetch_upstream_error_404 :
  ∃ message,
    error_flagged
      (run (answers not_found)
         (fetch_url_content (plain_fetch "https://example.com/missing")))
      message
    ∧ includes message "404" = true
    ∧ includes message "not found" = true.
Proof.
  eexists.
  pose proof (fetch_upstream_error (answers not_found)
                (plain_fetch "https://example.com/missing") not_found "not found"
                eq_refl eq_refl eq_refl) as (Hflag & Hstatus & _ & Hbody).
  split; [exact Hflag | split; [exact Hstatus | exact Hbody]].
Defined.

End FetchClaims.

(** ** The search translator *)

Module SearchClaims.
Import SearchTool SearchSpec.

Lemma search_run upstream p :
  run upstream (search p) =
  ([Fetched (search_request p)],
   Normal
     match upstream (search_request p) with
     | Thrown error => error_result ("Network error during search: " +:+ error_message error)
     | Normal response =>
         match text_result response with
         | Thrown error =>
             error_result ("Network error during search: " +:+ error_message error)
         | Normal body =>
             if ok response then success_result body
             else error_result
                    ("Error performing search: " +:+ String_of_number (status response)
                     +:+ " " +:+ statusText response +:+ ". " +:+ body)
         end
     end).
Proof.
  unfold search. simpl.
  destruct (upstream (search_request p)) as [response | error]; simpl; [| done].
  destruct (ok response), (text_result response); done.
Qed.

Lemma if_truthy_append {A} (inj : A → JsValue) (field : option A)
    (k : string) (f : A → string) (params : URLSearchParams.t) :
  if_truthy inj field (λ a, URLSearchParams.append k (f a)) params =
  params ++ entry k (match field with
                     | Some a => if truthy (inj a) then Some (f a) else None
                     | None => None
                     end).
Proof.
  unfold if_truthy. destruct field as [a|]; simpl; [| by rewrite app_nil_r].
  destruct (truthy (inj a)); simpl; [done | by rewrite app_nil_r].
Qed.

Lemma if_defined_append {A} (field : option A)
    (k : string) (f : A → string) (params : URLSearchParams.t) :
  if_defined field (λ a, URLSearchParams.append k (f a)) params =
  params ++ entry k (f <$> field).
Proof. destruct field as [a|]; simpl; [done | by rewrite app_nil_r]. Qed.

Lemma forEach_append (name : string) (xs : list string) (params : URLSearchParams.t) :
  fold_left (λ params x, URLSearchParams.append name x params) xs params
  = params ++ map (pair name) xs.
Proof.
  revert params. induction xs as [|x xs IH]; intros params; simpl.
  - by rewrite app_nil_r.
  - rewrite IH. unfold URLSearchParams.append. by rewrite <- app_assoc.
Qed.

Lemma append_each_entries (name : string) (field : option (list string))
    (params : URLSearchParams.t) :
  append_each name field params = params ++ entries name field.
Proof.
  unfold append_each, entries. destruct field as [[|x xs]|].
  - simpl. by rewrite app_nil_r.
  - replace (truthy (JNumber (Z.of_nat (length (x :: xs))))) with true by done.
    by rewrite forEach_append.
  - simpl. by rewrite app_nil_r.
Qed.

Lemma guard_nonempty (field : option string) :
  match field with
  | Some a => if truthy (JString a) then Some a else None
  | None => None
  end = nonempty field.
Proof. destruct field as [[|c s]|]; done. Qed.

Lemma guard_nonzero (field : option Z) :
  match field with
  | Some a => if truthy (JNumber a) then Some (String_of_number a) else None
  | None => None
  end = String_of_number <$> nonzero field.
Proof. destruct field as [[|n|n]|]; done. Qed.

Lemma guard_provider (field : option Provider) :
  match field with
  | Some a => if truthy ((JString ∘ Provider_string) a)
              then Some (Provider_string a) else None
  | None => None
  end = Provider_string <$> field.
Proof. destruct field as [[]|]; done. Qed.

Lemma guard_type (type : SearchType) :
  (if truthy ((JString ∘ SearchType_string) type)
   then Some (SearchType_string type) else None)
  = Some (SearchType_string type).
Proof. by destruct type. Qed.

(** The pairs the handler appends, in order. *)
Lemma search_params_entries p :
  search_params p = scalar_entries p ++ array_entries p.
Proof.
  unfold search_params, scalar_entries, array_entries. cbv zeta.
  rewrite !append_each_entries, !if_truthy_append, !if_defined_append.
  rewrite !guard_nonempty, !guard_nonzero, guard_provider, guard_type.
  unfold URLSearchParams.append, URLSearchParams.empty.
  rewrite <- !app_assoc. done.
Qed.

(** Reading the query string of the request back gives these pairs. *)
Lemma search_query_entries p :
  URLSearchParams.parse (search_query p) = scalar_entries p ++ array_entries p.
Proof.
  unfold search_query.
  by rewrite URLSearchParamsFacts.parse_toString, search_params_entries.
Qed.

(** C5, as the code has it. The query string has [q] once, [type] and
    [fallback] once (with their defaults ["web"] and [true] when absent),
    [nfpr] once when it is present, and each other scalar once when the
    guard on it lets it through: a string that is present and not empty, a
    number that is present and not zero. [count] and [num] each depend on
    their own field only, so both are there when both are let through. *)
Theorem search_scalars_once (p : SearchParams) :
  let query := URLSearchParams.parse (search_query p) in
  URLSearchParams.getAll "q" query = [q p]
  ∧ URLSearchParams.getAll "type" query = [SearchType_string (default type_web (type p))]
  ∧ URLSearchParams.getAll "provider" query = option_list (Provider_string <$> provider p)
  ∧ URLSearchParams.getAll "count" query
    = option_list (String_of_number <$> nonzero (count p))
  ∧ URLSearchParams.getAll "num" query
    = option_list (String_of_number <$> nonzero (num p))
  ∧ URLSearchParams.getAll "gl" query = option_list (nonempty (gl p))
  ∧ URLSearchParams.getAll "hl" query = option_list (nonempty (hl p))
  ∧ URLSearchParams.getAll "location" query = option_list (nonempty (location p))
  ∧ URLSearchParams.getAll "page" query
    = option_list (String_of_number <$> nonzero (page p))
  ∧ URLSearchParams.getAll "fallback" query
    = [String_of_boolean (default true (fallback p))]
  ∧ URLSearchParams.getAll "nfpr" query = option_list (String_of_boolean <$> nfpr p).
Proof.
  cbv zeta. rewrite search_query_entries.
  unfold scalar_entries, array_entries.
  repeat split; by read_entries.
Qed.

(** C5, as the specification words it, fails: [count: 0] is a present
    scalar field and the query string has no [count]. *)
Lemma scalars_appended_once_fails : ¬ scalars_appended_once zero_count.
Proof.
  intros (_ & _ & _ & Hcount & _).
  specialize (Hcount (mk_is_Some _ _ eq_refl)).
  vm_compute in Hcount. discriminate.
Qed.

(** C6. For each array filter the query string has one entry per element
    of the array, in the order of the array, and none when the filter is
    absent; so as many entries as the array is long. *)
Theorem search_array_filters (p : SearchParams) :
  let query := URLSearchParams.parse (search_query p) in
  URLSearchParams.getAll "ext" query = default [] (ext p)
  ∧ URLSearchParams.getAll "filetype" query = default [] (filetype p)
  ∧ URLSearchParams.getAll "intitle" query = default [] (intitle p)
  ∧ URLSearchParams.getAll "site" query = default [] (site p)
  ∧ URLSearchParams.getAll "loc" query = default [] (loc p)
  ∧ length (URLSearchParams.getAll "ext" query) = length (default [] (ext p))
  ∧ length (URLSearchParams.getAll "filetype" query) = length (default [] (filetype p))
  ∧ length (URLSearchParams.getAll "intitle" query) = length (default [] (intitle p))
  ∧ length (URLSearchParams.getAll "site" query) = length (default [] (site p))
  ∧ length (URLSearchParams.getAll "loc" query) = length (default [] (loc p)).
Proof.
  cbv zeta. rewrite search_query_entries.
  unfold scalar_entries, array_entries.
  repeat split; by read_entries.
Qed.

End SearchClaims.

(** ** The flight search translator *)

Module FlightsClaims.
Import FlightsTool FlightsSpec.

(** *** Validation *)

Lemma refine_rule (schema : Zod.Schema FlightParams) check message field data :
  Zod.refine schema check message [field] data
  = schema data ++ rule (negb (check data)) field message.
Proof.
  unfold Zod.refine, rule. destruct (check data); simpl; [by rewrite app_nil_r | done].
Qed.

Lemma check_airlines_spec p :
  negb (check_airlines p) = has_value (exclude_airlines p) && has_value (include_airlines p).
Proof.
  unfold check_airlines.
  destruct (exclude_airlines p) as [[|? ?]|], (include_airlines p) as [[|? ?]|]; done.
Qed.

Lemma check_tokens_spec p :
  negb (check_tokens p) = has_value (departure_token p) && has_value (booking_token p).
Proof.
  unfold check_tokens.
  destruct (departure_token p) as [[|? ?]|], (booking_token p) as [[|? ?]|]; done.
Qed.

Lemma check_cache_spec p :
  negb (check_cache p) = is_true (no_cache p) && is_true (async_search p).
Proof.
  unfold check_cache. destruct (no_cache p) as [[]|], (async_search p) as [[]|]; done.
Qed.

Lemma check_return_date_spec p :
  negb (check_return_date p)
  = bool_decide (flight_type p = Some flight_type_1) && bool_decide (return_date p = None).
Proof.
  unfold check_return_date.
  destruct (flight_type p) as [[]|], (return_date p); done.
Qed.

Lemma check_multi_city_spec p :
  negb (check_multi_city p)
  = bool_decide (flight_type p = Some flight_type_3)
    && bool_decide (multi_city_json p = None).
Proof.
  unfold check_multi_city.
  destruct (flight_type p) as [[]|], (multi_city_json p); done.
Qed.

(** The full schema raises the issues of the fields, then one issue per
    violated rule: no rule hides another. *)
Lemma googleFlightsFullSchema_issues p :
  googleFlightsFullSchema p = googleFlightsRawShape p ++ violated_rules p.
Proof.
  unfold googleFlightsFullSchema, violated_rules.
  rewrite !refine_rule.
  rewrite check_airlines_spec, check_tokens_spec, check_cache_spec,
    check_return_date_spec, check_multi_city_spec.
  by rewrite <- !app_assoc.
Qed.

Lemma parse_valid p :
  googleFlightsRawShape p = [] → violated_rules p = [] →
  Zod.parse googleFlightsFullSchema p = Zod.Parsed p.
Proof.
  intros Hshape Hrules. unfold Zod.parse.
  by rewrite googleFlightsFullSchema_issues, Hshape, Hrules.
Qed.

Lemma parse_invalid p :
  googleFlightsRawShape p = [] → violated_rules p ≠ [] →
  Zod.parse googleFlightsFullSchema p = Zod.ZodError (violated_rules p).
Proof.
  intros Hshape Hrules. unfold Zod.parse.
  rewrite googleFlightsFullSchema_issues, Hshape. simpl.
  by destruct (violated_rules p).
Qed.

(** Once validation lets a request through, one request goes upstream,
    whatever the upstream then answers. *)
Lemma flights_requests_sent upstream p :
  Zod.parse googleFlightsFullSchema p = Zod.Parsed p →
  requests_sent (run upstream (searchGoogleFlights p)) = [flights_request p].
Proof.
  intros Hparse. unfold requests_sent, searchGoogleFlights. rewrite Hparse. simpl.
  destruct (upstream (flights_request p)) as [response | error]; simpl; [| done].
  destruct (ok response); simpl.
  - by destruct (json_result response).
  - by destruct (text_result response).
Qed.

(** C2, as the code has it. Take a request whose fields pass their own
    checks. If it violates at least one rule as the code decides it (two
    exclusive strings both present and not empty, [no_cache] and
    [async_search] both true, a trip type without its required field), the
    result is error-flagged, its text lists the path and message of every
    violated rule, in rule order, and nothing is sent upstream. If it
    violates none of them, so also when an exclusive pair is present with
    a [false] or empty member, the request is sent. *)
Theorem flights_validation_reports_all (upstream : Request → Exc Response)
    (p : FlightParams) :
  googleFlightsRawShape p = [] →
  let outcome := run upstream (searchGoogleFlights p) in
  let message :=
    "Input validation error: " +:+ join ", " (map format_issue (violated_rules p)) in
  (violated_rules p ≠ [] →
     error_flagged outcome message
     ∧ requests_sent outcome = []
     ∧ (∀ issue, In issue (violated_rules p) →
          includes message (format_issue issue) = true))
  ∧ (violated_rules p = [] → requests_sent outcome = [flights_request p]).
Proof.
  intros Hshape outcome message. subst outcome message. split.
  - intros Hrules. unfold error_flagged, requests_sent, searchGoogleFlights.
    rewrite (parse_invalid p Hshape Hrules). repeat split.
    intros issue Hin. apply includes_skip, includes_join, in_map, Hin.
  - intros Hrules. apply flights_requests_sent. by apply parse_valid.
Qed.

(** Two rules violated at once: both are reported, nothing is sent. *)
Lemma flights_validation_reports_both :
  error_flagged
    (run (unreachable {| error_message := "ECONNRESET" |})
       (searchGoogleFlights two_violations))
    ("Input validation error: "
     +:+ "exclude_airlines: exclude_airlines and include_airlines cannot be used together."
     +:+ ", "
     +:+ "return_date: return_date is required when flight_type is '1' (Round trip).")
  ∧ requests_sent
      (run (unreachable {| error_message := "ECONNRESET" |})
         (searchGoogleFlights two_violations)) = [].
Proof.
  pose proof (flights_validation_reports_all
                (unreachable {| error_message := "ECONNRESET" |}) two_violations
                eq_refl) as [Hviolated _].
  destruct Hviolated as (Hflag & Hsent & _); [vm_compute; discriminate |].
  split; [exact Hflag | exact Hsent].
Defined.

(** C2, as the specification words it, fails: with [no_cache: false] and
    [async_search: true] both fields are present, and the request is sent. *)
Lemma rejects_every_violation_fails : ¬ rejects_every_violation.
Proof.
  intros Hclaim.
  destruct (Hclaim fresh_off_async_on (unreachable {| error_message := "ECONNRESET" |}))
    as [Hsent _].
  - reflexivity.
  - right. right. left. split; by eexists.
  - vm_compute in Hsent. discriminate.
Qed.

(** *** The query string *)

Lemma has_app name (a b : URLSearchParams.t) :
  URLSearchParams.has name (a ++ b)
  = URLSearchParams.has name a || URLSearchParams.has name b.
Proof. unfold URLSearchParams.has. apply existsb_app. Qed.

(** On a name that is not there yet, [set] is [append]. *)
Lemma set_fresh name value (params : URLSearchParams.t) :
  URLSearchParams.has name params = false →
  URLSearchParams.set name value params = params ++ [(name, value)].
Proof. unfold URLSearchParams.set. by intros ->. Qed.

Lemma if_defined_set {A} (field : option A) (k : string) (f : A → string)
    (params : URLSearchParams.t) :
  URLSearchParams.has k params = false →
  if_defined field (λ a, URLSearchParams.set k (f a)) params
  = params ++ entry k (f <$> field).
Proof.
  intros Hfresh. destruct field as [a|]; simpl.
  - by apply set_fresh.
  - by rewrite app_nil_r.
Qed.

Lemma add_param_fresh (params : URLSearchParams.t) (field : string * JsValue) :
  URLSearchParams.has (fst field) params = false →
  add_param params field = params ++ option_list (rendered field).
Proof.
  destruct field as [key [| b | n | s]]; simpl; intros Hfresh.
  - by rewrite app_nil_r.
  - by apply set_fresh.
  - by apply set_fresh.
  - by apply set_fresh.
Qed.

Lemma omap_option_list {A B} (f : A → option B) (x : A) (l : list A) :
  omap f (x :: l) = option_list (f x) ++ omap f l.
Proof. simpl. by destruct (f x). Qed.

(** Over fields with distinct keys, none of them in the query yet, the
    loop appends the fields that have a value, in order. *)
Lemma fold_add_param (fields : list (string * JsValue)) (params : URLSearchParams.t) :
  NoDup (map fst fields) →
  Forall (λ key, URLSearchParams.has key params = false) (map fst fields) →
  fold_left add_param fields params = params ++ omap rendered fields.
Proof.
  revert params. induction fields as [|field fields IH]; intros params Hdup Hfresh.
  - simpl. by rewrite app_nil_r.
  - simpl map in *. apply NoDup_cons in Hdup as [Hnotin Hdup].
    apply Forall_cons in Hfresh as [Hfield Hfresh].
    rewrite omap_option_list. simpl fold_left.
    rewrite add_param_fresh by done.
    rewrite IH; [by rewrite <- app_assoc | exact Hdup |].
    apply Forall_forall. intros key Hkey.
    rewrite has_app. rewrite Forall_forall in Hfresh. rewrite (Hfresh key Hkey).
    destruct field as [k v]. unfold rendered. simpl in *.
    destruct (stringified v); simpl; [| done].
    rewrite orb_false_r. apply String.eqb_neq. by intros ->.
Qed.

Lemma restParams_keys p : map fst (restParams p) = rest_keys.
Proof. reflexivity. Qed.

Lemma rest_keys_NoDup : NoDup rest_keys.
Proof. apply (bool_decide_unpack _). by vm_compute. Qed.

(** The pairs the handler puts in the query, in order. *)
Lemma flights_params_entries p : flights_params p = query_entries p.
Proof.
  unfold flights_params, query_entries. cbv zeta.
  rewrite (if_defined_set (flight_type p)) by done.
  rewrite (if_defined_set (async_search p)) by (by destruct (flight_type p)).
  rewrite fold_add_param.
  - by rewrite <- !app_assoc.
  - rewrite restParams_keys. apply rest_keys_NoDup.
  - rewrite restParams_keys.
    destruct (flight_type p), (async_search p);
      apply (bool_decide_unpack _); by vm_compute.
Qed.

Lemma flights_query_entries p :
  URLSearchParams.parse (flights_query p) = query_entries p.
Proof.
  unfold flights_query.
  by rewrite URLSearchParamsFacts.parse_toString, flights_params_entries.
Qed.

Lemma getAll_rendered_notin key (fields : list (string * JsValue)) :
  key ∉ map fst fields → URLSearchParams.getAll key (omap rendered fields) = [].
Proof.
  induction fields as [|[k v] fields IH]; [done |].
  simpl map. intros [Hne Hnotin]%not_elem_of_cons.
  rewrite omap_option_list, getAll_app, IH, app_nil_r by done.
  unfold rendered. simpl. destruct (stringified v); simpl; [| done].
  unfold URLSearchParams.getAll. simpl.
  by rewrite (proj2 (String.eqb_neq k key)).
Qed.

Lemma getAll_rendered_in key value (fields : list (string * JsValue)) :
  NoDup (map fst fields) → In (key, value) fields →
  URLSearchParams.getAll key (omap rendered fields) = option_list (stringified value).
Proof.
  induction fields as [|[k v] fields IH]; [done |].
  simpl map. intros [Hnotin Hdup]%NoDup_cons [Heq | Hin].
  - inversion Heq; subst k v.
    rewrite omap_option_list, getAll_app, getAll_rendered_notin, app_nil_r by done.
    unfold rendered. simpl. destruct (stringified value); simpl; [| done].
    unfold URLSearchParams.getAll. simpl. by rewrite String.eqb_refl.
  - rewrite omap_option_list, getAll_app, IH by done.
    assert (k ≠ key) as Hne.
    { intros ->. apply Hnotin, list_elem_of_In, in_map_iff. by exists (key, value). }
    unfold rendered. simpl. destruct (stringified v); simpl; [| done].
    unfold URLSearchParams.getAll at 1. simpl.
    by rewrite (proj2 (String.eqb_neq k key)).
Qed.

(** What the query string holds under the key of a field that the loop
    over [restParams] handles. *)
Lemma flights_query_rest p key value :
  In (key, value) (restParams p) →
  URLSearchParams.getAll key (URLSearchParams.parse (flights_query p))
  = option_list (stringified value).
Proof.
  intros Hin. rewrite flights_query_entries. unfold query_entries.
  rewrite !getAll_app, (getAll_rendered_in key value)
    by (done || (rewrite restParams_keys; apply rest_keys_NoDup)).
  assert (In key rest_keys) as Hkey.
  { rewrite <- (restParams_keys p). apply in_map_iff. by exists (key, value). }
  assert (Forall (λ key,
            URLSearchParams.getAll key
              [("engine", "google_flights"); ("api_key", api_key p)] = []
            ∧ URLSearchParams.getAll key
                (entry "type" (FlightType_string <$> flight_type p)) = []
            ∧ URLSearchParams.getAll key
                (entry "async" (String_of_boolean <$> async_search p)) = [])
            rest_keys) as Hprefix.
  { destruct (flight_type p), (async_search p);
      apply (bool_decide_unpack _); by vm_compute. }
  rewrite List.Forall_forall in Hprefix.
  destruct (Hprefix key Hkey) as (-> & -> & ->). done.
Qed.

Lemma Forall_rendered (names : list string) (fields : list (string * JsValue)) :
  Forall (λ key, In key names) (map fst fields) →
  Forall (λ nv : string * string, In (fst nv) names) (omap rendered fields).
Proof.
  induction fields as [|[k v] fields IH]; [by constructor |].
  simpl map. intros [Hk Hrest]%Forall_cons.
  rewrite omap_option_list. apply Forall_app. split; [| by apply IH].
  unfold rendered. simpl. destruct (stringified v); simpl; by repeat constructor.
Qed.

(** The query string holds no name but the known ones. *)
Lemma flights_query_known_names p :
  Forall (λ nv, In (fst nv) flights_query_names)
    (URLSearchParams.parse (flights_query p)).
Proof.
  rewrite flights_query_entries. unfold query_entries.
  repeat (apply Forall_app; split).
  - repeat (apply Forall_cons; split; [simpl; tauto |]). by apply Forall_nil.
  - destruct (flight_type p); simpl; [| by apply Forall_nil].
    apply Forall_cons. split; [simpl; tauto | by apply Forall_nil].
  - destruct (async_search p); simpl; [| by apply Forall_nil].
    apply Forall_cons. split; [simpl; tauto | by apply Forall_nil].
  - apply Forall_rendered. rewrite restParams_keys. unfold rest_keys.
    repeat (apply Forall_cons; split; [simpl; tauto |]). by apply Forall_nil.
Qed.

(** Read the entry of one field of [restParams] off the query string. *)
Ltac read_field :=
  erewrite flights_query_rest
    by (unfold restParams; repeat first [left; reflexivity | right]);
  match goal with
  | |- context [of_option _ ?field] => by destruct field
  end.

(** C4. For a request that passes validation, the one request sent has
    the query string [queryParams.toString()], and that query string reads
    back, name by name, as: [engine=google_flights]; the [api_key];
    [flight_type] under [type] and [async_search] under [async] when they
    are present, and nothing under their original names; then each of the
    thirty-one other fields under its own name exactly when it is present,
    strings as they are, enumerations by their value, booleans and numbers
    as their string. A field that is absent has no entry at all, and the
    query string holds no other name. *)
Theorem flights_query_parameters (upstream : Request → Exc Response)
    (p : FlightParams) :
  Zod.parse googleFlightsFullSchema p = Zod.Parsed p →
  let query := URLSearchParams.parse (flights_query p) in
  let read name := URLSearchParams.getAll name query in
  requests_sent (run upstream (searchGoogleFlights p)) = [flights_request p]
  ∧ req_url (flights_request p) = "https://serpapi.com/search.json?" +:+ flights_query p
  ∧ read "engine" = ["google_flights"]
  ∧ read "api_key" = [api_key p]
  ∧ read "type" = option_list (FlightType_string <$> flight_type p)
  ∧ read "flight_type" = []
  ∧ read "async" = option_list (String_of_boolean <$> async_search p)
  ∧ read "async_search" = []
  ∧ read "departure_id" = option_list (departure_id p)
  ∧ read "arrival_id" = option_list (arrival_id p)
  ∧ read "gl" = option_list (gl p)
  ∧ read "hl" = option_list (hl p)
  ∧ read "currency" = option_list (currency p)
  ∧ read "outbound_date" = option_list (outbound_date p)
  ∧ read "return_date" = option_list (return_date p)
  ∧ read "travel_class" = option_list (TravelClass_string <$> travel_class p)
  ∧ read "multi_city_json" = option_list (multi_city_json p)
  ∧ read "show_hidden" = option_list (String_of_boolean <$> show_hidden p)
  ∧ read "deep_search" = option_list (String_of_boolean <$> deep_search p)
  ∧ read "adults" = option_list (String_of_number <$> adults p)
  ∧ read "children" = option_list (String_of_number <$> children p)
  ∧ read "infants_in_seat" = option_list (String_of_number <$> infants_in_seat p)
  ∧ read "infants_on_lap" = option_list (String_of_number <$> infants_on_lap p)
  ∧ read "sort_by" = option_list (SortBy_string <$> sort_by p)
  ∧ read "stops" = option_list (Stops_string <$> stops p)
  ∧ read "exclude_airlines" = option_list (exclude_airlines p)
  ∧ read "include_airlines" = option_list (include_airlines p)
  ∧ read "bags" = option_list (String_of_number <$> bags p)
  ∧ read "max_price" = option_list (String_of_number <$> max_price p)
  ∧ read "outbound_times" = option_list (outbound_times p)
  ∧ read "return_times" = option_list (return_times p)
  ∧ read "emissions" = option_list (Emissions_string <$> emissions p)
  ∧ read "layover_duration" = option_list (layover_duration p)
  ∧ read "exclude_conns" = option_list (exclude_conns p)
  ∧ read "max_duration" = option_list (String_of_number <$> max_duration p)
  ∧ read "departure_token" = option_list (departure_token p)
  ∧ read "booking_token" = option_list (booking_token p)
  ∧ read "no_cache" = option_list (String_of_boolean <$> no_cache p)
  ∧ read "zero_trace" = option_list (String_of_boolean <$> zero_trace p)
  ∧ Forall (λ nv, In (fst nv) flights_query_names) query.
Proof.
  intros Hparse query read. subst query read. cbv beta.
  split; [by apply flights_requests_sent |].
  split; [done |].
  repeat split; [.. | apply flights_query_known_names].
  1-6: rewrite flights_query_entries; unfold query_entries;
       rewrite !getAll_app, getAll_rendered_notin
         by (rewrite restParams_keys; apply (bool_decide_unpack _); by vm_compute);
       by read_entries.
  all: read_field.
Qed.

(** A one-way search: the request it sends and what its query string
    holds. *)
Lemma flights_query_one_way :
  requests_sent
    (run (unreachable {| error_message := "ECONNRESET" |}) (searchGoogleFlights one_way))
  = [flights_request one_way]
  ∧ flights_query one_way
    = "engine=google_flights&api_key=key&type=2&async=false"
      +:+ "&departure_id=AUS&outbound_date=2025-05-19&adults=2"
  ∧ URLSearchParams.getAll "departure_id"
      (URLSearchParams.parse (flights_query one_way)) = ["AUS"]
  ∧ URLSearchParams.getAll "return_date"
      (URLSearchParams.parse (flights_query one_way)) = [].
Proof.
  pose proof (flights_query_parameters
                (unreachable {| error_message := "ECONNRESET" |}) one_way eq_refl)
    as (Hsent & _ & _ & _ & _ & _ & _ & _ & Hdeparture & _ & _ & _ & _ & _
        & Hreturn & _).
  split; [exact Hsent |]. split; [reflexivity |].
  split; [exact Hdeparture | exact Hreturn].
Defined.

(** C10. When validation has let the request through and the upstream
    answers with a status in 200-299 but [response.json()] throws, the
    result is error-flagged with the text of the catch-all branch,
    [Failed to fetch flight data: ] followed by the exception's message:
    the very result a transport fault with that message gives, neither
    a success nor the upstream-error text. *)
Theorem flights_malformed_json_as_transport_fault
    (upstream faulty : Request → Exc Response) (p : FlightParams)
    (response : Response) (error : JsError) :
  Zod.parse googleFlightsFullSchema p = Zod.Parsed p →
  upstream (flights_request p) = Normal response →
  ok response = true →
  json_result response = Thrown error →
  faulty (flights_request p) = Thrown error →
  error_flagged (run upstream (searchGoogleFlights p))
    ("Failed to fetch flight data: " +:+ error_message error)
  ∧ run upstream (searchGoogleFlights p) = run faulty (searchGoogleFlights p).
Proof.
  intros Hparse Hup Hok Hjson Hfaulty.
  unfold error_flagged, searchGoogleFlights. rewrite Hparse. simpl.
  by rewrite Hup, Hfaulty; simpl; rewrite Hok; simpl; rewrite Hjson.
Qed.

(** An HTML page served with status 200 is reported like a dropped
    connection. *)
Lemma flights_html_page_as_transport_fault :
  let error := {| error_message := "Unexpected token < in JSON at position 0" |} in
  error_flagged (run (answers (html_page error)) (searchGoogleFlights (plain_flights "key")))
    "Failed to fetch flight data: Unexpected token < in JSON at position 0"
  ∧ run (answers (html_page error)) (searchGoogleFlights (plain_flights "key"))
    = run (unreachable error) (searchGoogleFlights (plain_flights "key")).
Proof.
  exact (flights_malformed_json_as_transport_fault
           (answers (html_page {| error_message := "Unexpected token < in JSON at position 0" |}))
           (unreachable {| error_message := "Unexpected token < in JSON at position 0" |})
           (plain_flights "key")
           (html_page {| error_message := "Unexpected token < in JSON at position 0" |})
           {| error_message := "Unexpected token < in JSON at position 0" |}
           eq_refl eq_refl eq_refl eq_refl eq_refl).
Defined.

End FlightsClaims.

(** ** All three tools *)

Module ToolClaims.

Lemma reports_intro outcome prefix description :
  error_flagged outcome (prefix +:+ description) → reports outcome prefix description.
Proof. intros H. split; [done | apply includes_end]. Qed.

Lemma flights_returns_result upstream p :
  returns_result (run upstream (FlightsTool.searchGoogleFlights p)).
Proof.
  unfold returns_result, FlightsTool.searchGoogleFlights.
  destruct (Zod.parse FlightsTool.googleFlightsFullSchema p) as [v | errors];
    [| by eexists].
  destruct (run_try_catch_normal upstream
              (response ← await_fetch (FlightsTool.flights_request v);
               if negb (ok response) then
                 errorData ← await (text_result response);
                 _ ← console_error
                       [LogString ("SerpApi Error (" +:+ String_of_number (status response)
                                   +:+ "): " +:+ errorData)];
                 mret (error_result
                         ("Error fetching flight data from SerpApi: "
                          +:+ String_of_number (status response) +:+ " "
                          +:+ statusText response +:+ ". Details: " +:+ errorData))
               else
                 data ← await (json_result response);
                 mret (success_result (JSON_stringify_indent2 data)))
              (λ error,
                 _ ← console_error
                       [LogString ("Network or other error calling SerpApi: "
                                   +:+ error_message error)];
                 mret (error_result
                         ("Failed to fetch flight data: " +:+ error_message error))))
    as (events & result & Hrun).
  - intros e. by eexists _, _.
  - exists result. by rewrite Hrun.
Qed.

(** C8. In each tool, when [fetch] throws, the run ends with an
    error-flagged result whose text is the tool's network-error prefix
    followed by the exception's message. And whatever the upstream does,
    every run ends with a result: nothing is thrown to the caller. *)
Theorem network_fault_is_caught (upstream : Request → Exc Response) (error : JsError) :
  (∀ p, upstream (FetchTool.fetch_request p) = Thrown error →
        reports (run upstream (FetchTool.fetch_url_content p))
          "Network error fetching URL: " (error_message error))
  ∧ (∀ p, upstream (SearchTool.search_request p) = Thrown error →
          reports (run upstream (SearchTool.search p))
            "Network error during search: " (error_message error))
  ∧ (∀ p, Zod.parse FlightsTool.googleFlightsFullSchema p = Zod.Parsed p →
          upstream (FlightsTool.flights_request p) = Thrown error →
          reports (run upstream (FlightsTool.searchGoogleFlights p))
            "Failed to fetch flight data: " (error_message error))
  ∧ (∀ p, returns_result (run upstream (FetchTool.fetch_url_content p)))
  ∧ (∀ p, returns_result (run upstream (SearchTool.search p)))
  ∧ (∀ p, returns_result (run upstream (FlightsTool.searchGoogleFlights p))).
Proof.
  split; [| split; [| split; [| split; [| split]]]].
  - intros p Hfault. apply reports_intro. unfold error_flagged.
    by rewrite FetchClaims.fetch_url_content_run, Hfault.
  - intros p Hfault. apply reports_intro. unfold error_flagged.
    by rewrite SearchClaims.search_run, Hfault.
  - intros p Hparse Hfault. apply reports_intro.
    unfold error_flagged, FlightsTool.searchGoogleFlights.
    rewrite Hparse. simpl. by rewrite Hfault.
  - intros p. unfold returns_result. rewrite FetchClaims.fetch_url_content_run. by eexists.
  - intros p. unfold returns_result. rewrite SearchClaims.search_run. by eexists.
  - intros p. apply flights_returns_result.
Qed.

(** The specification's example for C8: a connection reset. *)
Lemma network_fault_ECONNRESET :
  let upstream := unreachable {| error_message := "ECONNRESET" |} in
  error_flagged
    (run upstream (FetchTool.fetch_url_content (FetchSpec.plain_fetch "https://example.com/")))
    "Network error fetching URL: ECONNRESET"
  ∧ includes "Network error fetching URL: ECONNRESET" "ECONNRESET" = true
  ∧ error_flagged (run upstream (SearchTool.search (SearchSpec.plain_search "rocq" "key")))
      "Network error during search: ECONNRESET"
  ∧ error_flagged
      (run upstream (FlightsTool.searchGoogleFlights (FlightsSpec.plain_flights "key")))
      "Failed to fetch flight data: ECONNRESET".
Proof.
  pose proof (network_fault_is_caught
                (unreachable {| error_message := "ECONNRESET" |})
                {| error_message := "ECONNRESET" |})
    as (Hfetch & Hsearch & Hflights & _).
  destruct (Hfetch (FetchSpec.plain_fetch "https://example.com/") eq_refl) as [H1 H2].
  destruct (Hsearch (SearchSpec.plain_search "rocq" "key") eq_refl) as [H3 _].
  destruct (Hflights (FlightsSpec.plain_flights "key") eq_refl eq_refl) as [H4 _].
  repeat split; assumption.
Defined.

End ToolClaims.

(** * Further properties of the handlers *)

Lemma prefix_differs (c1 c2 : ascii) (s1 s2 x : string) :
  c1 ≠ c2 → String.prefix (String c1 s1) (String c2 s2 +:+ x) = false.
Proof.
  intros Hne. rewrite append_cons. simpl. by destruct (ascii_dec c1 c2).
Qed.

(** Close the cases of a statement that tells the branches apart. *)
Ltac shape_cases :=
  repeat split; try done;
  try (intros _; by eauto 6);
  try (by intros [? ?]);
  try (by intros (? & ? & ? & ? & ?));
  try (intros (? & ? & [= <-] & ? & ?); congruence).

(** ** What a serialized query is made of *)

Lemma all_bytes_append test (a b : string) :
  all_bytes test (a +:+ b) = all_bytes test a && all_bytes test b.
Proof.
  induction a as [|c a IH]; [done |].
  rewrite append_cons. simpl. by rewrite IH, andb_assoc.
Qed.

Lemma percent_encode_byte_safe c :
  all_bytes query_byte (URLSearchParams.percent_encode_byte c) = true.
Proof. destruct c as [[] [] [] [] [] [] [] []]; by vm_compute. Qed.

Lemma percent_encode_safe s :
  all_bytes query_byte (URLSearchParams.percent_encode s) = true.
Proof.
  induction s as [|c s IH]; [done |].
  simpl. by rewrite all_bytes_append, percent_encode_byte_safe, IH.
Qed.

Lemma serialize_pair_safe nv :
  all_bytes query_byte (URLSearchParams.serialize_pair nv) = true.
Proof.
  unfold URLSearchParams.serialize_pair.
  by rewrite !all_bytes_append, !percent_encode_safe.
Qed.

(** A serialized query is made of query bytes only. *)
Lemma toString_safe (params : URLSearchParams.t) :
  all_bytes query_byte (URLSearchParams.toString params) = true.
Proof.
  unfold URLSearchParams.toString.
  induction params as [|nv params IH]; [done |].
  destruct params as [|nv' params]; [apply serialize_pair_safe |].
  change (join "&" (map URLSearchParams.serialize_pair (nv :: nv' :: params)))
    with (URLSearchParams.serialize_pair nv +:+ "&"
          +:+ join "&" (map URLSearchParams.serialize_pair (nv' :: params))).
  by rewrite !all_bytes_append, serialize_pair_safe, IH.
Qed.

Lemma safe_lacks ch s :
  query_byte ch = false → all_bytes query_byte s = true → lacks ch s = true.
Proof.
  intros Hch. induction s as [|c s IH]; [done |].
  simpl. intros [Hc Hs]%andb_true_iff. rewrite IH by done.
  destruct (Ascii.eqb_spec c ch) as [-> | _]; [congruence | done].
Qed.

Lemma toString_clean (params : URLSearchParams.t) :
  url_clean (URLSearchParams.toString params).
Proof.
  pose proof (toString_safe params) as Hsafe.
  repeat split; [done | by apply safe_lacks ..].
Qed.

(** ** The content fetch translator, further *)

Module FetchExtras.
Import FetchTool FetchSpec.

(** X1. When the upstream answers with a status in 200-299 and the body
    reads, the run sends the one request and hands back a result that is
    not error-flagged, with a single text item: the body, unchanged. *)
Theorem fetch_success_verbatim (upstream : Request → Exc Response)
    (p : FetchParams) (response : Response) (body : string) :
  upstream (fetch_request p) = Normal response →
  ok response = true →
  text_result response = Normal body →
  run upstream (fetch_url_content p)
  = ([Fetched (fetch_request p)],
     Normal {| content := [{| type := "text"; text := body |}]; isError := None |}).
Proof.
  intros Hup Hok Hbody.
  by rewrite FetchClaims.fetch_url_content_run, Hup, Hbody, Hok.
Qed.

(** A Markdown page comes back as it is. *)
Lemma fetch_success_markdown :
  snd (run (answers markdown_page) (fetch_url_content (plain_fetch "https://example.com/")))
  = Normal {| content := [{| type := "text"; text := "# Title" |}]; isError := None |}.
Proof.
  exact (f_equal snd
           (fetch_success_verbatim (answers markdown_page)
              (plain_fetch "https://example.com/") markdown_page "# Title"
              eq_refl eq_refl eq_refl)).
Defined.

(** X2. The text of an error-flagged result tells which branch produced
    it: it starts with [Network error fetching URL: ] exactly when no body
    could be read ([fetch] threw or [response.text()] did), and with
    [Error fetching URL: ] exactly when the upstream answered with a status
    outside 200-299 and a body that reads. *)
Theorem fetch_error_shape (upstream : Request → Exc Response)
    (p : FetchParams) (message : string) :
  error_flagged (run upstream (fetch_url_content p)) message →
  (String.prefix "Network error fetching URL: " message = true
   ↔ unreadable (upstream (fetch_request p)))
  ∧ (String.prefix "Error fetching URL: " message = true
     ↔ refused (upstream (fetch_request p))).
Proof.
  unfold error_flagged, unreadable, refused.
  rewrite FetchClaims.fetch_url_content_run. simpl.
  destruct (upstream (fetch_request p)) as [response | error].
  - destruct (text_result response) as [body | error] eqn:Hbody.
    + destruct (ok response) eqn:Hok; intros [= <-].
      rewrite prefix_append, prefix_differs by done. shape_cases.
    + intros [= <-].
      rewrite prefix_append, prefix_differs by done. shape_cases.
  - intros [= <-].
    rewrite prefix_append, prefix_differs by done. shape_cases.
Qed.

(** A body stream that breaks on a 500 gives the network-error text, so
    the run does not count as refused by the upstream. *)
Lemma fetch_error_shape_broken_body :
  ¬ refused
      (answers (broken_body 500 {| error_message := "terminated" |})
         (fetch_request (plain_fetch "https://example.com/"))).
Proof.
  intros Hrefused.
  apply (proj2 (fetch_error_shape
                  (answers (broken_body 500 {| error_message := "terminated" |}))
                  (plain_fetch "https://example.com/")
                  "Network error fetching URL: terminated" eq_refl)) in Hrefused.
  discriminate Hrefused.
Defined.

(** X15. Where a [#] of the target URL ends up. With [usePostForUrl] true
    the request URL is the base endpoint, which has none, and the form
    body has none either, the URL being escaped; the body still reads back
    as the target URL. In every other case the request URL has a [#]
    exactly when the target URL has one: it is passed on unescaped. *)
Theorem fetch_fragment (p : FetchParams) :
  let request := fetch_request p in
  (usePostForUrl p = Some true →
     lacks "#" (req_url request) = true
     ∧ ∃ body, req_body request = Some body
               ∧ lacks "#" (URLSearchParams.toString body) = true
               ∧ URLSearchParams.getAll "url"
                   (URLSearchParams.parse (URLSearchParams.toString body))
                 = [url p])
  ∧ (usePostForUrl p ≠ Some true →
       lacks "#" (req_url request) = lacks "#" (url p)).
Proof.
  cbv zeta. split.
  - intros Hpost. unfold fetch_request. rewrite Hpost. simpl. split; [done |].
    eexists. split; [done |]. split.
    + apply toString_clean.
    + rewrite URLSearchParamsFacts.parse_toString.
      unfold URLSearchParams.getAll. done.
  - intros Hget. unfold fetch_request.
    assert (truthy (of_option JBoolean (usePostForUrl p)) = false) as ->
      by (by destruct (usePostForUrl p) as [[]|]).
    simpl. by rewrite URLSearchParamsFacts.lacks_append.
Qed.

End FetchExtras.

(** ** The search translator, further *)

Module SearchExtras.
Import SearchTool SearchSpec.

Lemma search_headers_dom p : dom (search_headers p) ⊆ search_header_names.
Proof.
  unfold search_headers. cbv zeta.
  apply dom_if_defined; [by vm_compute |].
  apply dom_if_truthy; [by vm_compute |].
  assert (dom (if_truthy JString (Some (apiKey p))
                 (λ apiKey, <["Authorization" := "Bearer " +:+ apiKey]>)
                 (∅ : Headers)) ⊆ search_header_names) as Hkey.
  { apply dom_if_truthy; [by vm_compute |]. by rewrite dom_empty_L. }
  destruct (outputFormat p) as [[]|]; [| done | done].
  rewrite dom_insert_L. apply union_subseteq. split; [| done].
  rewrite singleton_subseteq_l. by vm_compute.
Qed.

(** X3. The headers of a search request: the bearer token when the API key
    is not empty, [Accept: application/json] when the output format is
    [json] (and nothing for [text]), [X-No-Cache] when [noCache] is true,
    the cache tolerance when it is present (zero included); no other
    header is set. *)
Theorem search_headers_table (p : SearchParams) :
  let headers := req_headers (search_request p) in
  headers !! "Authorization"
  = (if String.eqb (apiKey p) "" then None else Some ("Bearer " +:+ apiKey p))
  ∧ headers !! "Accept"
    = match outputFormat p with
      | Some fmt_json => Some "application/json"
      | _ => None
      end
  ∧ headers !! "X-No-Cache" = (if is_true (noCache p) then Some "true" else None)
  ∧ headers !! "X-Cache-Tolerance" = String_of_number <$> cacheTolerance p
  ∧ dom headers ⊆ search_header_names.
Proof.
  cbv zeta. simpl req_headers. repeat split; [.. | apply search_headers_dom].
  all: unfold search_headers; cbv zeta.
  all: destruct (outputFormat p) as [[]|]; header_lookup.
  all: try match goal with
       | |- context [is_true ?field] => destruct field as [[]|]
       | |- context [fmap _ ?field] => destruct field as [x|]
       end; try done.
  all: by destruct (apiKey p).
Qed.

Lemma Forall_entry (names : list string) k (v : option string) :
  In k names → Forall (λ nv : string * string, In (fst nv) names) (entry k v).
Proof. intros Hk. destruct v; simpl; by repeat constructor. Qed.

Lemma Forall_entries (names : list string) k (vs : option (list string)) :
  In k names → Forall (λ nv : string * string, In (fst nv) names) (entries k vs).
Proof.
  intros Hk. unfold entries. induction (default [] vs); simpl; by constructor.
Qed.

Lemma getAll_unnamed (names : list string) name (params : URLSearchParams.t) :
  Forall (λ nv, In (fst nv) names) params → ¬ In name names →
  URLSearchParams.getAll name params = [].
Proof.
  intros Hall Hname. induction Hall as [|[k v] params Hk _ IH]; [done |].
  unfold URLSearchParams.getAll in *. simpl in *.
  destruct (String.eqb_spec k name) as [-> | _]; done.
Qed.

(** X4. The query string of a search request, read back, is the scalar
    parameters in the order of the source followed by the array filters in
    theirs. Its names are among the sixteen the handler appends, so the
    API key, the output format and the cache controls never reach the
    query string: they travel as headers only. The request is a GET with
    no body. *)
Theorem search_query_shape (p : SearchParams) :
  let query := URLSearchParams.parse (search_query p) in
  query = scalar_entries p ++ array_entries p
  ∧ Forall (λ nv, In (fst nv) search_query_names) query
  ∧ (∀ name, ¬ In name search_query_names → URLSearchParams.getAll name query = [])
  ∧ req_url (search_request p) = "https://s.jina.ai/search?" +:+ search_query p
  ∧ effective_method (search_request p) = GET
  ∧ req_body (search_request p) = None.
Proof.
  cbv zeta. rewrite SearchClaims.search_query_entries.
  assert (Forall (λ nv : string * string, In (fst nv) search_query_names)
            (scalar_entries p ++ array_entries p)) as Hnames.
  { unfold scalar_entries, array_entries.
    repeat (apply Forall_app; split);
      first [ apply Forall_entry | apply Forall_entries
            | apply Forall_cons; split; [| apply Forall_nil] ];
      simpl; tauto. }
  repeat split; [done |].
  intros name Hname. by apply (getAll_unnamed search_query_names).
Qed.

(** X5. When the upstream answers and the body reads, a status in 200-299
    gives the body unchanged in a result that is not error-flagged, and any
    other status gives an error-flagged result whose text is made of the
    status code, the status text and the body. *)
Theorem search_response_translation (upstream : Request → Exc Response)
    (p : SearchParams) (response : Response) (body : string) :
  upstream (search_request p) = Normal response →
  text_result response = Normal body →
  let message :=
    "Error performing search: " +:+ String_of_number (status response)
    +:+ " " +:+ statusText response +:+ ". " +:+ body in
  snd (run upstream (search p))
  = Normal (if ok response then success_result body else error_result message)
  ∧ includes message (String_of_number (status response)) = true
  ∧ includes message (statusText response) = true
  ∧ includes message body = true.
Proof.
  intros Hup Hbody message. subst message. repeat split.
  - rewrite SearchClaims.search_run, Hup, Hbody. simpl. by destruct (ok response).
  - apply includes_middle.
  - apply includes_skip, includes_skip, includes_middle.
  - do 4 apply includes_skip. apply includes_end.
Qed.

(** A 404 on a search, and a page that is found. *)
Lemma search_response_translation_examples :
  snd (run (answers FetchSpec.not_found) (search (plain_search "rocq" "key")))
  = Normal (error_result "Error performing search: 404 Not Found. not found")
  ∧ snd (run (answers markdown_page) (search (plain_search "rocq" "key")))
    = Normal (success_result "# Title").
Proof.
  split.
  - exact (proj1 (search_response_translation (answers FetchSpec.not_found)
                    (plain_search "rocq" "key") FetchSpec.not_found "not found"
                    eq_refl eq_refl)).
  - exact (proj1 (search_response_translation (answers markdown_page)
                    (plain_search "rocq" "key") markdown_page "# Title"
                    eq_refl eq_refl)).
Defined.

(** X6. The text of an error-flagged search result tells which branch
    produced it: [Network error during search: ] exactly when no body could
    be read, [Error performing search: ] exactly when the upstream answered
    with a status outside 200-299 and a body that reads. *)
Theorem search_error_shape (upstream : Request → Exc Response)
    (p : SearchParams) (message : string) :
  error_flagged (run upstream (search p)) message →
  (String.prefix "Network error during search: " message = true
   ↔ unreadable (upstream (search_request p)))
  ∧ (String.prefix "Error performing search: " message = true
     ↔ refused (upstream (search_request p))).
Proof.
  unfold error_flagged, unreadable, refused.
  rewrite SearchClaims.search_run. simpl.
  destruct (upstream (search_request p)) as [response | error].
  - destruct (text_result response) as [body | error] eqn:Hbody.
    + destruct (ok response) eqn:Hok; intros [= <-].
      rewrite prefix_append, prefix_differs by done. shape_cases.
    + intros [= <-].
      rewrite prefix_append, prefix_differs by done. shape_cases.
  - intros [= <-].
    rewrite prefix_append, prefix_differs by done. shape_cases.
Qed.

(** A search that cannot reach the upstream is not refused by it. *)
Lemma search_error_shape_unreachable :
  ¬ refused
      (unreachable {| error_message := "ECONNRESET" |}
         (search_request (plain_search "rocq" "key"))).
Proof.
  intros Hrefused.
  apply (proj2 (search_error_shape
                  (unreachable {| error_message := "ECONNRESET" |})
                  (plain_search "rocq" "key")
                  "Network error during search: ECONNRESET" eq_refl)) in Hrefused.
  discriminate Hrefused.
Defined.

End SearchExtras.

(** ** The flight search translator, further *)

Module FlightsExtras.
Import FlightsTool FlightsSpec.

(** The run of a request that validation lets through, by what the
    upstream answers. *)
Lemma flights_run_parsed upstream p :
  Zod.parse googleFlightsFullSchema p = Zod.Parsed p →
  run upstream (searchGoogleFlights p) =
  let failed error :=
    ([Fetched (flights_request p);
      Logged [LogString ("Network or other error calling SerpApi: "
                         +:+ error_message error)]],
     Normal (error_result ("Failed to fetch flight data: " +:+ error_message error))) in
  match upstream (flights_request p) with
  | Thrown error => failed error
  | Normal response =>
      if ok response then
        match json_result response with
        | Normal data =>
            ([Fetched (flights_request p)],
             Normal (success_result (JSON_stringify_indent2 data)))
        | Thrown error => failed error
        end
      else
        match text_result response with
        | Normal errorData =>
            ([Fetched (flights_request p);
              Logged [LogString ("SerpApi Error (" +:+ String_of_number (status response)
                                 +:+ "): " +:+ errorData)]],
             Normal (error_result
                       ("Error fetching flight data from SerpApi: "
                        +:+ String_of_number (status response) +:+ " "
                        +:+ statusText response +:+ ". Details: " +:+ errorData)))
        | Thrown error => failed error
        end
  end.
Proof.
  intros Hparse. unfold searchGoogleFlights. rewrite Hparse. simpl.
  destruct (upstream (flights_request p)) as [response | error]; simpl; [| done].
  destruct (ok response); simpl.
  - by destruct (json_result response).
  - by destruct (text_result response).
Qed.

Lemma flights_run_rejected upstream p errors :
  Zod.parse googleFlightsFullSchema p = Zod.ZodError errors →
  run upstream (searchGoogleFlights p) =
  ([Logged [LogString "Input validation error for searchGoogleFlights:";
            LogIssues errors]],
   Normal (error_result
             ("Input validation error: " +:+ join ", " (map format_issue errors)))).
Proof. intros Hparse. unfold searchGoogleFlights. by rewrite Hparse. Qed.

Lemma parse_cases p :
  Zod.parse googleFlightsFullSchema p = Zod.Parsed p
  ∨ ∃ errors, Zod.parse googleFlightsFullSchema p = Zod.ZodError errors.
Proof.
  destruct (Zod.parse googleFlightsFullSchema p) as [v | errors] eqn:Hparse.
  - left. by apply parse_Parsed in Hparse as [-> _].
  - right. by exists errors.
Qed.

Ltac flights_cases :=
  split; [| split]; split; try done;
  try (by intros [? ?]);
  try (by intros (_ & ? & ?));
  try (intros (_ & ? & ? & ? & ? & ?); congruence);
  try (intros _; repeat first [split | eexists]; done).

(** X7. The text of an error-flagged flights result tells which of the
    three failures produced it: [Input validation error: ] exactly when
    validation rejected the request, [Error fetching flight data from
    SerpApi: ] exactly when the request was sent and the upstream answered
    with a status outside 200-299 and a body that reads, and [Failed to
    fetch flight data: ] exactly when the request was sent and [fetch],
    [response.json()] or [response.text()] threw. *)
Theorem flights_error_shape (upstream : Request → Exc Response)
    (p : FlightParams) (message : string) :
  error_flagged (run upstream (searchGoogleFlights p)) message →
  (String.prefix "Input validation error: " message = true
   ↔ ∃ errors, Zod.parse googleFlightsFullSchema p = Zod.ZodError errors)
  ∧ (String.prefix "Error fetching flight data from SerpApi: " message = true
     ↔ Zod.parse googleFlightsFullSchema p = Zod.Parsed p
       ∧ refused (upstream (flights_request p)))
  ∧ (String.prefix "Failed to fetch flight data: " message = true
     ↔ Zod.parse googleFlightsFullSchema p = Zod.Parsed p
       ∧ undecodable (upstream (flights_request p))).
Proof.
  unfold error_flagged, refused, undecodable.
  destruct (parse_cases p) as [Hparse | [errors Hparse]].
  - rewrite (flights_run_parsed upstream p Hparse). cbv zeta. rewrite Hparse.
    clear Hparse.
    destruct (upstream (flights_request p)) as [response | error].
    + destruct (ok response) eqn:Hok.
      * destruct (json_result response) as [data | error] eqn:Hjson;
          intros [= <-].
        rewrite prefix_append, !prefix_differs by done. flights_cases.
      * destruct (text_result response) as [body | error] eqn:Hbody;
          intros [= <-]; rewrite prefix_append, !prefix_differs by done;
          flights_cases.
    + intros [= <-]. rewrite prefix_append, !prefix_differs by done.
      flights_cases.
  - rewrite (flights_run_rejected upstream p errors Hparse). rewrite Hparse.
    clear Hparse.
    intros [= <-]. rewrite prefix_append, !prefix_differs by done.
    flights_cases.
Qed.

(** The validation text can only come from a request that validation
    rejected. *)
Lemma flights_error_shape_rejected :
  ∃ errors, Zod.parse googleFlightsFullSchema two_violations = Zod.ZodError errors.
Proof.
  apply (proj1 (flights_error_shape
                  (unreachable {| error_message := "ECONNRESET" |}) two_violations
                  ("Input validation error: "
                   +:+ "exclude_airlines: exclude_airlines and include_airlines cannot be used together."
                   +:+ ", "
                   +:+ "return_date: return_date is required when flight_type is '1' (Round trip).")
                  eq_refl)).
  reflexivity.
Defined.

(** X8. Once validation has let the request through and the upstream has
    answered: a status outside 200-299 with a body that reads gives an
    error-flagged result whose text is made of the status code, the status
    text and the body, and one console line with the status and the body;
    a status in 200-299 whose body parses as JSON gives the re-serialized
    document in a result that is not error-flagged, and no console line. *)
Theorem flights_response_translation (upstream : Request → Exc Response)
    (p : FlightParams) (response : Response) :
  Zod.parse googleFlightsFullSchema p = Zod.Parsed p →
  upstream (flights_request p) = Normal response →
  let outcome := run upstream (searchGoogleFlights p) in
  (∀ body, ok response = false → text_result response = Normal body →
     let message :=
       "Error fetching flight data from SerpApi: "
       +:+ String_of_number (status response) +:+ " "
       +:+ statusText response +:+ ". Details: " +:+ body in
     error_flagged outcome message
     ∧ includes message (String_of_number (status response)) = true
     ∧ includes message (statusText response) = true
     ∧ includes message body = true
     ∧ lines_logged outcome
       = [[LogString ("SerpApi Error (" +:+ String_of_number (status response)
                      +:+ "): " +:+ body)]])
  ∧ (∀ data, ok response = true → json_result response = Normal data →
       snd outcome = Normal (success_result (JSON_stringify_indent2 data))
       ∧ lines_logged outcome = []).
Proof.
  intros Hparse Hup outcome. subst outcome.
  rewrite (flights_run_parsed upstream p Hparse). cbv zeta. rewrite Hup.
  split.
  - intros body Hok Hbody. rewrite Hok, Hbody. repeat split.
    + apply includes_middle.
    + apply includes_skip, includes_skip, includes_middle.
    + do 4 apply includes_skip. apply includes_end.
  - intros data Hok Hjson. by rewrite Hok, Hjson.
Qed.

(** A 429 from the provider. *)
Lemma flights_response_translation_429 :
  error_flagged
    (run (answers too_many_requests) (searchGoogleFlights (plain_flights "key")))
    ("Error fetching flight data from SerpApi: 429 Too Many Requests. "
     +:+ "Details: rate limit exceeded").
Proof.
  exact (proj1 (proj1 (flights_response_translation (answers too_many_requests)
                         (plain_flights "key") too_many_requests eq_refl eq_refl)
                  "rate limit exceeded" eq_refl eq_refl)).
Defined.

(** X9. What a flights run writes to the console: exactly one line when
    the result is error-flagged, whichever failure it was, and nothing when
    it is not. *)
Theorem flights_logs_each_failure_once (upstream : Request → Exc Response)
    (p : FlightParams) :
  let outcome := run upstream (searchGoogleFlights p) in
  ∃ result,
    snd outcome = Normal result
    ∧ length (lines_logged outcome)
      = match isError result with
        | Some true => 1%nat
        | _ => 0%nat
        end.
Proof.
  cbv zeta. destruct (parse_cases p) as [Hparse | [errors Hparse]].
  - rewrite (flights_run_parsed upstream p Hparse). cbv zeta.
    destruct (upstream (flights_request p)) as [response | error];
      [| by eexists].
    destruct (ok response).
    + destruct (json_result response); by eexists.
    + destruct (text_result response); by eexists.
  - rewrite (flights_run_rejected upstream p errors Hparse). by eexists.
Qed.

(** X10. Validation lets a request through exactly when no field fails
    its own check and no rule is violated. Otherwise the result is
    error-flagged and lists every issue, those of the fields first and
    those of the rules after them, nothing is sent upstream, and the
    issues are written to the console once. *)
Theorem flights_validation_complete (upstream : Request → Exc Response)
    (p : FlightParams) :
  let issues := googleFlightsRawShape p ++ violated_rules p in
  let outcome := run upstream (searchGoogleFlights p) in
  let message := "Input validation error: " +:+ join ", " (map format_issue issues) in
  (Zod.parse googleFlightsFullSchema p = Zod.Parsed p ↔ issues = [])
  ∧ (issues ≠ [] →
       error_flagged outcome message
       ∧ requests_sent outcome = []
       ∧ lines_logged outcome
         = [[LogString "Input validation error for searchGoogleFlights:";
             LogIssues issues]]
       ∧ (∀ issue, In issue issues → includes message (format_issue issue) = true)).
Proof.
  cbv zeta. split.
  - unfold Zod.parse. rewrite FlightsClaims.googleFlightsFullSchema_issues.
    by destruct (googleFlightsRawShape p ++ violated_rules p).
  - intros Hissues.
    assert (Zod.parse googleFlightsFullSchema p
            = Zod.ZodError (googleFlightsRawShape p ++ violated_rules p)) as Hparse.
    { unfold Zod.parse. rewrite FlightsClaims.googleFlightsFullSchema_issues.
      by destruct (googleFlightsRawShape p ++ violated_rules p). }
    rewrite (flights_run_rejected upstream p _ Hparse). repeat split.
    intros issue Hin. apply includes_skip, includes_join, in_map, Hin.
Qed.

Lemma In_regex_issue issue name message field :
  In issue (Zod.regex_issue name message field) → Prog.message issue = message.
Proof.
  unfold Zod.regex_issue. destruct field as [s|]; [| done].
  destruct (Zod.matches_date s); [done |]. by intros [<- | []].
Qed.

Lemma In_min0_issue issue name field :
  In issue (Zod.min0_issue name field) →
  Prog.message issue = "Number must be greater than or equal to 0".
Proof.
  unfold Zod.min0_issue. destruct field as [n|]; [| done].
  destruct (0 <=? n); [done |]. by intros [<- | []].
Qed.

(** The issues of the fields carry the messages of the field checks. *)
Lemma googleFlightsRawShape_messages p issue :
  In issue (googleFlightsRawShape p) →
  Prog.message issue = date_message
  ∨ Prog.message issue = "Number must be greater than or equal to 0".
Proof.
  unfold googleFlightsRawShape. rewrite !in_app_iff.
  intros [H | [H | [H | [H | [H | [H | [H | [H | H]]]]]]]];
    first [ left; by apply In_regex_issue in H
          | right; by apply In_min0_issue in H ].
Qed.

Lemma In_rule issue violated field message :
  In issue (rule violated field message)
  ↔ violated = true ∧ issue = {| path := [field]; message := message |}.
Proof.
  unfold rule. destruct violated; simpl; [| by intuition].
  split; [by intros [<- | []] | intros [_ ->]; by left].
Qed.

Ltac rule_cases :=
  repeat match goal with
    | H : _ ∨ _ |- _ => destruct H as [H | H]
    | H : _ = true ∧ _ = _ |- _ => destruct H as [? [=]]
    end.

(** X11. The five rules are independent: the schema raises the issue of a
    rule exactly when that rule's own condition holds, whatever the other
    fields are. In particular [return_date] is only asked for when
    [flight_type] is given as ["1"], not when it is left out. *)
Theorem flights_rules_independent (p : FlightParams) :
  let raised field message :=
    In {| path := [field]; message := message |} (googleFlightsFullSchema p) in
  (raised "exclude_airlines"
     "exclude_airlines and include_airlines cannot be used together."
   ↔ has_value (exclude_airlines p) && has_value (include_airlines p) = true)
  ∧ (raised "departure_token"
       "departure_token and booking_token cannot be used together."
     ↔ has_value (departure_token p) && has_value (booking_token p) = true)
  ∧ (raised "no_cache" "no_cache and async_search cannot be used together."
     ↔ is_true (no_cache p) && is_true (async_search p) = true)
  ∧ (raised "return_date"
       "return_date is required when flight_type is '1' (Round trip)."
     ↔ flight_type p = Some flight_type_1 ∧ return_date p = None)
  ∧ (raised "multi_city_json"
       "multi_city_json is required when flight_type is '3' (Multi-city)."
     ↔ flight_type p = Some flight_type_3 ∧ multi_city_json p = None).
Proof.
  cbv zeta. rewrite FlightsClaims.googleFlightsFullSchema_issues.
  unfold violated_rules.
  split; [| split; [| split; [| split]]]; split.
  all: rewrite ?in_app_iff, ?In_rule.
  all: try (intros H; rule_cases; try done;
            try (by apply googleFlightsRawShape_messages in H as [H | H]);
            match goal with
            | H : _ && _ = true |- _ =>
                apply andb_true_iff in H as [?%bool_decide_eq_true ?%bool_decide_eq_true]
            end; done).
  all: intros H; right.
  - by left.
  - right. by left.
  - right. right. by left.
  - destruct H as [H1 H2]. do 3 right. left.
    split; [| done]. apply andb_true_iff. by rewrite !bool_decide_eq_true.
  - destruct H as [H1 H2]. do 4 right.
    split; [| done]. apply andb_true_iff. by rewrite !bool_decide_eq_true.
Qed.

Lemma digit_kept c :
  Zod.is_digit c = true → URLSearchParams.percent_encode_byte c = String c "".
Proof. destruct c as [[] [] [] [] [] [] [] []]; by vm_compute. Qed.

(** A string that matches the date pattern is serialized as it is. *)
Lemma matches_date_kept s :
  Zod.matches_date s = true → URLSearchParams.percent_encode s = s.
Proof.
  unfold Zod.matches_date.
  destruct s as [|y1 [|y2 [|y3 [|y4 [|d1 [|m1 [|m2 [|d2 [|a1 [|a2 [|? ?]]]]]]]]]]];
    try done.
  simpl list_ascii_of_string. cbn [forallb].
  rewrite !andb_true_iff, !Ascii.eqb_eq.
  intros [[(? & ? & ? & ? & ? & ? & ? & ? & _) ->] ->].
  cbn [URLSearchParams.percent_encode].
  change (URLSearchParams.percent_encode_byte "-") with "-".
  rewrite !digit_kept by done. reflexivity.
Qed.

Lemma regex_issue_nil name message s :
  Zod.regex_issue name message (Some s) = [] → Zod.matches_date s = true.
Proof. unfold Zod.regex_issue. by destruct (Zod.matches_date s). Qed.

Lemma includes_toString (params : URLSearchParams.t) nv :
  In nv params →
  includes (URLSearchParams.toString params) (URLSearchParams.serialize_pair nv) = true.
Proof. intros Hin. unfold URLSearchParams.toString. by apply includes_join, in_map. Qed.

Lemma In_rendered key s (fields : list (string * JsValue)) :
  In (key, JString s) fields → In (key, s) (omap rendered fields).
Proof.
  intros Hin. apply list_elem_of_In, list_elem_of_omap.
  exists (key, JString s). split; [by apply list_elem_of_In | done].
Qed.

(** X12. A date that passed the date pattern reaches the query string as
    it was given: for a request whose fields pass their checks, the query
    string has [outbound_date=] and [return_date=] followed by the date,
    with nothing escaped. *)
Theorem flights_dates_verbatim (p : FlightParams) :
  googleFlightsRawShape p = [] →
  (∀ date, outbound_date p = Some date →
     includes (flights_query p) ("outbound_date=" +:+ date) = true)
  ∧ (∀ date, return_date p = Some date →
       includes (flights_query p) ("return_date=" +:+ date) = true).
Proof.
  unfold googleFlightsRawShape.
  intros [Hout [Hret _]%app_eq_nil]%app_eq_nil.
  unfold flights_query. rewrite FlightsClaims.flights_params_entries.
  split; intros date Hdate.
  - rewrite Hdate in Hout. apply regex_issue_nil, matches_date_kept in Hout.
    replace ("outbound_date=" +:+ date)
      with (URLSearchParams.serialize_pair ("outbound_date", date))
      by (unfold URLSearchParams.serialize_pair; simpl; by rewrite Hout).
    apply includes_toString. unfold query_entries.
    rewrite !in_app_iff. do 3 right. apply In_rendered.
    unfold restParams. rewrite Hdate. simpl of_option.
    do 5 right. by left.
  - rewrite Hdate in Hret. apply regex_issue_nil, matches_date_kept in Hret.
    replace ("return_date=" +:+ date)
      with (URLSearchParams.serialize_pair ("return_date", date))
      by (unfold URLSearchParams.serialize_pair; simpl; by rewrite Hret).
    apply includes_toString. unfold query_entries.
    rewrite !in_app_iff. do 3 right. apply In_rendered.
    unfold restParams. rewrite Hdate. simpl of_option.
    do 6 right. by left.
Qed.

(** The outbound date of the one-way search. *)
Lemma flights_dates_verbatim_one_way :
  includes (flights_query one_way) "outbound_date=2025-05-19" = true.
Proof.
  exact (proj1 (flights_dates_verbatim one_way eq_refl) "2025-05-19" eq_refl).
Defined.

End FlightsExtras.

(** ** All three tools, further *)

Module ToolExtras.

(** X13. No handler retries and the first two never log: whatever the
    upstream answers, a fetch run and a search run consist of the one
    request and nothing else, and a flights run sends its one request when
    validation lets it through and none when it does not. *)
Theorem single_request_no_retry (upstream : Request → Exc Response) :
  (∀ p, fst (run upstream (FetchTool.fetch_url_content p))
        = [Fetched (FetchTool.fetch_request p)])
  ∧ (∀ p, fst (run upstream (SearchTool.search p))
          = [Fetched (SearchTool.search_request p)])
  ∧ (∀ p, requests_sent (run upstream (FlightsTool.searchGoogleFlights p))
          = match Zod.parse FlightsTool.googleFlightsFullSchema p with
            | Zod.Parsed validatedParams => [FlightsTool.flights_request validatedParams]
            | Zod.ZodError _ => []
            end).
Proof.
  split; [| split].
  - intros p. by rewrite FetchClaims.fetch_url_content_run.
  - intros p. by rewrite SearchClaims.search_run.
  - intros p. destruct (FlightsExtras.parse_cases p) as [Hparse | [errors Hparse]].
    + rewrite Hparse. by apply FlightsClaims.flights_requests_sent.
    + rewrite Hparse, (FlightsExtras.flights_run_rejected upstream p errors Hparse).
      done.
Qed.

(** X14. Every query string the handlers build, and the form body of a
    POST, is made of the bytes of the form encoding only: characters left
    as they are, [+], [%XX] escapes and the separators. Whatever the
    parameter values hold, it has no space, no [#], no [?] and no [/], so
    the URL it is appended to has the query the handler meant. *)
Theorem query_strings_url_clean :
  (∀ p, url_clean (SearchTool.search_query p))
  ∧ (∀ p, url_clean (FlightsTool.flights_query p))
  ∧ (∀ p body, req_body (FetchTool.fetch_request p) = Some body →
               url_clean (URLSearchParams.toString body)).
Proof.
  split; [| split]; intros; apply toString_clean.
Qed.

End ToolExtras.

